(** * cinnamon-plugin-cors: the CinnamonCors plugin of [src/main.ts]

    A shallow embedding of the plugin class (constructor, the
    [devModeOverride] getter, [beforeRegisterControllers] and the two
    request handlers it can hand to the web server), followed by the
    properties of the per-request header decision.

    Conventions.
    - An optional field ([x?: T]) is an [option]; [None] is JavaScript's
      [undefined].
    - A header policy is the JavaScript value found in the field: a string
      or an array of strings.  Conditions written [if (v)] in the source go
      through [truthy], which follows JavaScript (the empty string is falsy,
      every array is truthy, also the empty one).
    - [String.prototype.toLowerCase] belongs to the JavaScript runtime, not
      to the plugin: it is a parameter of the development ([JS.Runtime]),
      known only to be idempotent.  The examples at the end run with
      [JS.ascii_toLowerCase], which agrees with it on ASCII text.
    - The exchange object [ctx] is the state of a small state-and-exception
      monad [M]; a handler is a function from the rest of the pipeline
      ([next]) to a computation.
    - Response header names are the lower-case strings the source passes to
      [ctx.response.set]. *)

From Stdlib Require Import String Ascii ZArith List Bool.
From stdpp Require Import gmap strings.

Local Open Scope string_scope.

(** ** JavaScript values of the option fields *)

Module JS.

(** The run-time shapes a header policy takes: [typeof v === "string"] or
    [Array.isArray(v)]. *)
Inductive Policy : Type :=
| Str (s : string)
| Arr (l : list string).

Inductive Error : Type :=
| TypeError.

(** [if (v)] on an optional policy. *)
Definition truthy (v : option Policy) : bool :=
  match v with
  | None => false
  | Some (Str s) => negb (String.eqb s EmptyString)
  | Some (Arr _) => true
  end.

(** [if (v)] and [!v] on an optional boolean. *)
Definition truthy_bool (v : option bool) : bool :=
  match v with
  | Some true => true
  | _ => false
  end.

(** [Array.prototype.includes] on strings. *)
Fixpoint includes (l : list string) (x : string) : bool :=
  match l with
  | [] => false
  | y :: l' => String.eqb y x || includes l' x
  end.

(** [Array.prototype.join]. *)
Definition join (sep : string) (l : list string) : string :=
  String.concat sep l.

(** What the runtime provides besides the operators above:
    [String.prototype.toLowerCase], with the one law the development uses. *)
Class Runtime : Type := {
  toLowerCase : string -> string;
  toLowerCase_idempotent :
    forall s, toLowerCase (toLowerCase s) = toLowerCase s
}.

Definition toLowerCase_char (c : ascii) : ascii :=
  let n := nat_of_ascii c in
  if (65 <=? n)%nat && (n <=? 90)%nat then ascii_of_nat (n + 32) else c.

(** [String.prototype.toLowerCase] on ASCII text: the letters A-Z are
    mapped, every other byte is kept. *)
Fixpoint ascii_toLowerCase (s : string) : string :=
  match s with
  | EmptyString => EmptyString
  | String c s' => String (toLowerCase_char c) (ascii_toLowerCase s')
  end.

(** The runtime the examples are run with. *)
Definition ascii_runtime : Runtime.
Proof.
  refine {| toLowerCase := ascii_toLowerCase |}.
  abstract (
    induction s as [|c s IH]; [reflexivity|];
    cbn [ascii_toLowerCase]; rewrite IH; f_equal;
    destruct c as [[] [] [] [] [] [] [] []]; reflexivity).
Defined.

(** [a ?? b]. *)
Definition nullish {A : Type} (a b : option A) : option A :=
  match a with
  | Some v => Some v
  | None => b
  end.

End JS.

(** ** The exchange object and the handler monad *)

(** The request as the handler sees it.  [get] is the header accessor of
    the host, [ctx.request.get(name)], with the JavaScript value it answers:
    [None] for [undefined] or [null], the readings [??] replaces, and
    [Some s] for a string.  The host answers the empty string for a header
    the request does not carry (see [host_accessor]).  The other fields
    stand for the rest of the request. *)
Record Request : Type := {
  get : string -> option string;
  method : string;
  url : string;
  request_body : string
}.

Record Response : Type := {
  headers : gmap string string;
  status : Z;
  body : string
}.

Record Context : Type := {
  request : Request;
  response : Response
}.

(** A computation on the exchange object that returns a value or throws.
    The object is mutated in place, so the state survives a throw. *)
Definition M (A : Type) : Type := Context -> Context * (JS.Error + A).

Definition ret {A : Type} (a : A) : M A := fun ctx => (ctx, inr a).

Definition bind {A B : Type} (m : M A) (k : A -> M B) : M B :=
  fun ctx =>
    match m ctx with
    | (ctx', inr a) => k a ctx'
    | (ctx', inl e) => (ctx', inl e)
    end.

Definition throw {A : Type} (e : JS.Error) : M A := fun ctx => (ctx, inl e).

#[export] Instance M_ret : MRet M := @ret.
#[export] Instance M_bind : MBind M := fun A B k m => bind m k.

Definition set_headers (h : gmap string string) (r : Response) : Response :=
  {| headers := h; status := status r; body := body r |}.

(** The exchange object after [ctx.response.set(name, value)]. *)
Definition with_header (name value : string) (ctx : Context) : Context :=
  {| request := request ctx;
     response := set_headers (<[name := value]> (headers (response ctx)))
                             (response ctx) |}.

(** [ctx.response.set(name, value)]. *)
Definition response_set (name value : string) : M unit :=
  fun ctx => (with_header name value ctx, inr tt).

(** [ctx.request.get(name)]. *)
Definition request_get (name : string) : M (option string) :=
  fun ctx => (ctx, inr (get (request ctx) name)).

Section Plugin.

Context {runtime : JS.Runtime}.

(** [v.toLowerCase()] on a value that may be [undefined]. *)
Definition call_toLowerCase (v : option string) : M string :=
  match v with
  | Some s => ret (JS.toLowerCase s)
  | None => throw JS.TypeError
  end.

(** A request handler [(ctx, next) => ...].  Its first argument is the
    value [framework.inDevMode] has while the handler runs: the closures
    keep a reference to the plugin, and through it to the framework. *)
Definition Middleware : Type := bool -> M unit -> M unit.

(** ** The plugin *)

Record CinnamonCorsOptions : Type := {
  allowCredentials : option bool;
  allowOrigins : option JS.Policy;
  allowHeaders : option JS.Policy;
  allowMethods : option JS.Policy;
  exposeHeaders : option JS.Policy;
  ignoreDevMode : option bool
}.

Definition set_ignoreDevMode (v : option bool) (o : CinnamonCorsOptions)
  : CinnamonCorsOptions :=
  {| allowCredentials := allowCredentials o;
     allowOrigins := allowOrigins o;
     allowHeaders := allowHeaders o;
     allowMethods := allowMethods o;
     exposeHeaders := exposeHeaders o;
     ignoreDevMode := v |}.

Definition set_allowOrigins (v : option JS.Policy) (o : CinnamonCorsOptions)
  : CinnamonCorsOptions :=
  {| allowCredentials := allowCredentials o;
     allowOrigins := v;
     allowHeaders := allowHeaders o;
     allowMethods := allowMethods o;
     exposeHeaders := exposeHeaders o;
     ignoreDevMode := ignoreDevMode o |}.

Definition set_allowHeaders (v : option JS.Policy) (o : CinnamonCorsOptions)
  : CinnamonCorsOptions :=
  {| allowCredentials := allowCredentials o;
     allowOrigins := allowOrigins o;
     allowHeaders := v;
     allowMethods := allowMethods o;
     exposeHeaders := exposeHeaders o;
     ignoreDevMode := ignoreDevMode o |}.

Definition set_allowMethods (v : option JS.Policy) (o : CinnamonCorsOptions)
  : CinnamonCorsOptions :=
  {| allowCredentials := allowCredentials o;
     allowOrigins := allowOrigins o;
     allowHeaders := allowHeaders o;
     allowMethods := v;
     exposeHeaders := exposeHeaders o;
     ignoreDevMode := ignoreDevMode o |}.

Definition set_exposeHeaders (v : option JS.Policy) (o : CinnamonCorsOptions)
  : CinnamonCorsOptions :=
  {| allowCredentials := allowCredentials o;
     allowOrigins := allowOrigins o;
     allowHeaders := allowHeaders o;
     allowMethods := allowMethods o;
     exposeHeaders := v;
     ignoreDevMode := ignoreDevMode o |}.

(** The object literal [{ ignoreDevMode: false }]. *)
Definition default_options : CinnamonCorsOptions :=
  {| allowCredentials := None;
     allowOrigins := None;
     allowHeaders := None;
     allowMethods := None;
     exposeHeaders := None;
     ignoreDevMode := Some false |}.

(** The plugin object; its only own field is [options]. *)
Record CinnamonCors : Type := {
  options : CinnamonCorsOptions
}.

(** The host framework as far as the plugin uses it: the environment flag
    and the handlers registered on the web server module. *)
Record Cinnamon : Type := {
  inDevMode : bool;
  server : list Middleware
}.

(** [new CinnamonCors(framework, options)]. *)
Definition constructor (opts : option CinnamonCorsOptions) : CinnamonCors :=
  let o1 :=
    match opts with
    | Some o =>
        match ignoreDevMode o with
        | Some true => o
        | _ => set_ignoreDevMode (Some false) o
        end
    | None => default_options
    end in
  let o2 :=
    match allowOrigins o1 with
    | Some (JS.Arr l) =>
        set_allowOrigins (Some (JS.Arr (map JS.toLowerCase l))) o1
    | _ => o1
    end in
  {| options := o2 |}.

(** [get devModeOverride()]. *)
Definition devModeOverride (this : CinnamonCors) (framework : Cinnamon) : bool :=
  negb (JS.truthy_bool (ignoreDevMode (options this))) && inDevMode framework.

(** The handler registered when the override is active (lines 171-191). *)
Definition lenientMiddleware : Middleware :=
  fun _ next =>
    response_set "access-control-allow-credentials" "true";;
    response_set "access-control-allow-origin" "*";;
    response_set "access-control-allow-headers" "*";;
    response_set "access-control-allow-methods" "*";;
    response_set "access-control-expose-headers" "*";;
    next.

(** The value given to one of the three list headers: the conditional
    expression of lines 255-266 (and its two copies). *)
Definition header_value (p : JS.Policy) : string :=
  match p with
  | JS.Str s => if JS.includes ["*"; "any"] s then "*" else s
  | JS.Arr l => JS.join ", " l
  end.

(** [if (this.options.<field>) ctx.response.set(name, ...)]. *)
Definition list_header (name : string) (v : option JS.Policy) : M unit :=
  if JS.truthy v then
    match v with
    | Some p => response_set name (header_value p)
    | None => ret tt
    end
  else ret tt.

(** Lines 208-248: the allowOrigins block. *)
Definition origin_header (v : option JS.Policy) : M unit :=
  if JS.truthy v then
    match v with
    | Some (JS.Str s) =>
        if JS.includes ["*"; "any"] s
        then response_set "access-control-allow-origin" "*"
        else response_set "access-control-allow-origin" s
    | Some (JS.Arr l) =>
        match l with
        | [] => ret tt
        | [o] => response_set "access-control-allow-origin" o
        | _ :: _ :: _ =>
            a ← request_get "Origin";
            b ← request_get "Host";
            requestOrigin ← call_toLowerCase (JS.nullish a b);
            if JS.includes l requestOrigin
            then response_set "access-control-allow-origin" requestOrigin
            else ret tt
        end
    | None => ret tt
    end
  else ret tt.

(** The handler registered when the override is not active
    (lines 198-311). *)
Definition policyMiddleware (this : CinnamonCors) : Middleware :=
  fun _ next =>
    response_set "access-control-allow-origin" "*";;
    (if JS.truthy_bool (allowCredentials (options this))
     then response_set "access-control-allow-credentials" "true"
     else ret tt);;
    origin_header (allowOrigins (options this));;
    list_header "access-control-allow-headers" (allowHeaders (options this));;
    list_header "access-control-allow-methods" (allowMethods (options this));;
    list_header "access-control-expose-headers" (exposeHeaders (options this));;
    next.

(** [server.use(handler)]. *)
Definition server_use (handler : Middleware) (framework : Cinnamon) : Cinnamon :=
  {| inDevMode := inDevMode framework;
     server := server framework ++ [handler] |}.

(** [onInitialize()]. *)
Definition onInitialize (this : CinnamonCors) : bool := true.

(** [beforeRegisterControllers()]. *)
Definition beforeRegisterControllers (this : CinnamonCors) (framework : Cinnamon)
  : Cinnamon :=
  if devModeOverride this framework
  then server_use lenientMiddleware framework
  else server_use (policyMiddleware this) framework.

(** ** Serving a request *)

(** Modelled from the spec: the request pipeline of the host's web server
    module, which is not part of this repository.  It runs the registered
    handlers in registration order, each one receiving the rest of the
    pipeline as [next] (section 6: handlers of shape
    [(exchange, next) -> awaits next()]). *)
Fixpoint dispatch (handlers : list Middleware) (dev : bool) : M unit :=
  match handlers with
  | [] => ret tt
  | h :: rest => h dev (dispatch rest dev)
  end.

Definition handleRequest (framework : Cinnamon) : M unit :=
  dispatch (server framework) (inDevMode framework).

(** A framework instance on which nothing is registered yet. *)
Definition newFramework (dev : bool) : Cinnamon :=
  {| inDevMode := dev; server := [] |}.

(** The environment flag as it reads at a later time. *)
Definition setDevMode (dev : bool) (framework : Cinnamon) : Cinnamon :=
  {| inDevMode := dev; server := server framework |}.

(** The life of the plugin in an application that loads it alone: it is
    constructed and registered while the flag reads [dev_reg]; a request is
    served while the flag reads [dev_req]. *)
Definition serve (opts : option CinnamonCorsOptions) (dev_reg dev_req : bool)
  : M unit :=
  handleRequest
    (setDevMode dev_req
       (beforeRegisterControllers (constructor opts) (newFramework dev_reg))).

(** [ctx.request.get('Origin') ?? ctx.request.get('Host')], the value the
    multi-origin branch lower-cases. *)
Definition requestOrigin (r : Request) : option string :=
  JS.nullish (get r "Origin") (get r "Host").

(** Requests and responses to run the handlers on. *)
Definition mkRequest (origin host : option string) : Request :=
  {| get := fun name =>
              if String.eqb name "Origin" then origin
              else if String.eqb name "Host" then host
              else None;
     method := "GET"; url := "/"; request_body := EmptyString |}.

Definition fresh_response : Response :=
  {| headers := ∅; status := 404; body := EmptyString |}.

Definition exchange (origin host : option string) : Context :=
  {| request := mkRequest origin host; response := fresh_response |}.

(** The header read back from the exchange object a run ends with. *)
Definition header_after {A : Type} (r : Context * (JS.Error + A)) (name : string)
  : option string :=
  headers (response (fst r)) !! name.

(** The five header names the plugin writes. *)
Definition cors_headers : list string :=
  [ "access-control-allow-credentials";
    "access-control-allow-origin";
    "access-control-allow-headers";
    "access-control-allow-methods";
    "access-control-expose-headers" ].

(** A field of the configuration as the caller wrote it; without an
    options object every field is unset. *)
Definition configured {A : Type} (field : CinnamonCorsOptions -> option A)
  (opts : option CinnamonCorsOptions) : option A :=
  match opts with
  | Some o => field o
  | None => None
  end.

(** The specification's reading of the override (section 4.1, step 1): the
    test is made again for every request, with the environment flag as it
    reads then.  Kept apart from [serve], which is what the code does. *)
Definition serve_per_request (opts : option CinnamonCorsOptions) (dev_req : bool)
  : M unit :=
  fun ctx =>
    if devModeOverride (constructor opts) (newFramework dev_req)
    then lenientMiddleware dev_req (ret tt) ctx
    else policyMiddleware (constructor opts) dev_req (ret tt) ctx.

(** [same_but names ctx ctx']: the exchange object [ctx'] is [ctx] up to
    the response headers listed in [names]. *)
Definition same_but (names : list string) (ctx ctx' : Context) : Prop :=
  request ctx' = request ctx /\
  status (response ctx') = status (response ctx) /\
  body (response ctx') = body (response ctx) /\
  forall k, k ∉ names ->
    headers (response ctx') !! k = headers (response ctx) !! k.

(** The exchange object when the allowOrigins block is entered: lines
    199-206 have run. *)
Definition at_origin_block (this : CinnamonCors) (ctx : Context) : Context :=
  let ctx1 := with_header "access-control-allow-origin" "*" ctx in
  if JS.truthy_bool (allowCredentials (options this))
  then with_header "access-control-allow-credentials" "true" ctx1
  else ctx1.

(** The exchange object handed to [next] when the allowOrigins block left
    [ctx]: lines 250-308 have run. *)
Definition after_list_headers (this : CinnamonCors) (ctx : Context) : Context :=
  fst (list_header "access-control-expose-headers"
         (exposeHeaders (options this))
         (fst (list_header "access-control-allow-methods"
                 (allowMethods (options this))
                 (fst (list_header "access-control-allow-headers"
                         (allowHeaders (options this)) ctx))))).

(** Configurations used in the examples: the policy is enforced in every
    environment, with nothing else set, or with two allowed origins. *)
Definition production_options : CinnamonCorsOptions :=
  set_ignoreDevMode (Some true) default_options.

Definition two_origins : CinnamonCorsOptions :=
  set_allowOrigins (Some (JS.Arr ["https://a.com"; "https://b.com"]))
    production_options.

Definition demo_options : CinnamonCorsOptions :=
  set_allowOrigins (Some (JS.Arr ["https://a.com"; "https://B.com"]))
    (set_allowHeaders (Some (JS.Arr ["X-A"; "X-B"])) production_options).

(** What section 4.1 asks of one of the three list headers, given the
    option [v], the header before the handler ran and the header after it:
    unset leaves the header alone, a wildcard marker gives [*], a list gives
    its entries joined with a comma and a space, a bare string other than
    the markers is passed through; the empty string, falsy in JavaScript,
    counts as unset. *)
Definition list_policy_outcome (v : option JS.Policy) (before after : option string)
  : Prop :=
  (v = None -> after = before) /\
  (v = Some (JS.Str "*") \/ v = Some (JS.Str "any") -> after = Some "*") /\
  (forall l, v = Some (JS.Arr l) -> after = Some (JS.join ", " l)) /\
  (forall s, v = Some (JS.Str s) -> s <> "*" -> s <> "any" -> s <> EmptyString ->
             after = Some s) /\
  (v = Some (JS.Str EmptyString) -> after = before).

(** [settles f]: on every header name, the update [f] of the exchange
    object either writes a value fixed by the request alone or leaves the
    header as it found it, and which of the two is fixed by the request
    alone. *)
Definition settles (f : Context -> Context) : Prop :=
  forall (k : string) (ca cb : Context),
    request ca = request cb ->
    headers (response (f ca)) !! k = headers (response (f cb)) !! k \/
    (headers (response (f ca)) !! k = headers (response ca) !! k /\
     headers (response (f cb)) !! k = headers (response cb) !! k).

(** The origin of a request up to letter case. *)
Definition lowered_origin (r : Request) : option string :=
  JS.toLowerCase <$> requestOrigin r.

(** Another request shape for the examples: a POST with a body and a cookie,
    besides the two headers the plugin looks at. *)
Definition postRequest (origin host : option string) : Request :=
  {| get := fun name =>
              if String.eqb name "Origin" then origin
              else if String.eqb name "Host" then host
              else if String.eqb name "Cookie" then Some "sid=1"
              else None;
     method := "POST"; url := "/api/items"; request_body := "{}" |}.

Definition postExchange (origin host : option string) : Context :=
  {| request := postRequest origin host; response := fresh_response |}.

(** Modelled from the spec: the header accessor of the host's exchange
    object, which is not part of this repository.  Section 4.1 has an absent
    header read as undefined or empty; the host's accessor answers a string
    for every header name, the empty one for a header the request does not
    carry. *)
Definition host_accessor (r : Request) : Prop :=
  forall name, get r name <> None.

(** A request as the host hands it over; [EmptyString] stands for an
    [Origin] or [Host] header the request does not carry. *)
Definition hostRequest (origin host : string) : Request :=
  {| get := fun name =>
              if String.eqb name "Origin" then Some origin
              else if String.eqb name "Host" then Some host
              else Some EmptyString;
     method := "GET"; url := "/"; request_body := EmptyString |}.

Definition hostExchange (origin host : string) : Context :=
  {| request := hostRequest origin host; response := fresh_response |}.

(** Two more configurations for the examples. *)
Definition credentials_options : CinnamonCorsOptions :=
  {| allowCredentials := Some true;
     allowOrigins := None;
     allowHeaders := None;
     allowMethods := None;
     exposeHeaders := None;
     ignoreDevMode := Some true |}.

Definition host_origins : CinnamonCorsOptions :=
  set_allowOrigins (Some (JS.Arr ["example.org"; "api.example.org"]))
    production_options.

(** * Properties *)

(** ** Running computations *)

Lemma run_bind {A B : Type} (m : M A) (k : A -> M B) (ctx : Context) :
  (m ≫= k) ctx =
  match m ctx with
  | (ctx', inr a) => k a ctx'
  | (ctx', inl e) => (ctx', inl e)
  end.
Proof. reflexivity. Qed.

Lemma run_ret {A : Type} (a : A) (ctx : Context) : ret a ctx = (ctx, inr a).
Proof. reflexivity. Qed.

Lemma run_response_set (name value : string) (ctx : Context) :
  response_set name value ctx = (with_header name value ctx, inr tt).
Proof. reflexivity. Qed.

Lemma lookup_with_header (name value k : string) (ctx : Context) :
  headers (response (with_header name value ctx)) !! k
  = if decide (name = k) then Some value else headers (response ctx) !! k.
Proof. unfold with_header; simpl. apply lookup_insert. Qed.

Lemma lookup_with_header_ne (name value k : string) (ctx : Context) :
  name <> k ->
  headers (response (with_header name value ctx)) !! k
  = headers (response ctx) !! k.
Proof. intros. rewrite lookup_with_header. by case_decide. Qed.

(** Reads a header back through the writes made on top of it. *)
Ltac read_header :=
  repeat (rewrite lookup_with_header; case_decide; try done).

Lemma with_header_commute (n1 v1 n2 v2 : string) (ctx : Context) :
  n1 <> n2 ->
  with_header n1 v1 (with_header n2 v2 ctx)
  = with_header n2 v2 (with_header n1 v1 ctx).
Proof.
  intros Hne. unfold with_header, set_headers; simpl.
  f_equal. f_equal. by apply insert_insert_ne.
Qed.

(** ** Which handler serves the requests *)

Lemma serve_active (opts : option CinnamonCorsOptions) (dev_reg dev_req : bool) :
  devModeOverride (constructor opts) (newFramework dev_reg) = true ->
  serve opts dev_reg dev_req = lenientMiddleware dev_req (ret tt).
Proof.
  intros H. unfold serve, beforeRegisterControllers. rewrite H. reflexivity.
Qed.

Lemma serve_inactive (opts : option CinnamonCorsOptions) (dev_reg dev_req : bool) :
  devModeOverride (constructor opts) (newFramework dev_reg) = false ->
  serve opts dev_reg dev_req
  = policyMiddleware (constructor opts) dev_req (ret tt).
Proof.
  intros H. unfold serve, beforeRegisterControllers. rewrite H. reflexivity.
Qed.

(** The constructor keeps [ignoreDevMode] only when it is [true]. *)
Lemma constructor_ignoreDevMode (o : CinnamonCorsOptions) :
  ignoreDevMode (options (constructor (Some o)))
  = Some (JS.truthy_bool (ignoreDevMode o)).
Proof.
  unfold constructor.
  destruct o as [c ao ah am eh [[|]|]]; simpl;
    destruct ao as [[s|l]|]; reflexivity.
Qed.

Lemma devModeOverride_constructor (o : CinnamonCorsOptions) (framework : Cinnamon) :
  devModeOverride (constructor (Some o)) framework
  = negb (JS.truthy_bool (ignoreDevMode o)) && inDevMode framework.
Proof.
  unfold devModeOverride. rewrite constructor_ignoreDevMode.
  by destruct (JS.truthy_bool (ignoreDevMode o)).
Qed.

Lemma devModeOverride_default (framework : Cinnamon) :
  devModeOverride (constructor None) framework = inDevMode framework.
Proof. reflexivity. Qed.

(** ** The dev-mode override *)

(** C1, amended: [devModeOverride] is read once, by
    [beforeRegisterControllers]; every request is served as the per-request
    reading would serve it under the flag's value at registration, whatever
    the flag reads when the request is handled. *)
Theorem override_fixed_at_registration
  (opts : option CinnamonCorsOptions) (dev_reg dev_req : bool) (ctx : Context) :
  serve opts dev_reg dev_req ctx = serve_per_request opts dev_reg ctx.
Proof.
  unfold serve_per_request.
  destruct (devModeOverride (constructor opts) (newFramework dev_reg)) eqn:E.
  - by rewrite (serve_active _ _ dev_req E).
  - by rewrite (serve_inactive _ _ dev_req E).
Qed.

Lemma devModeOverride_configured
  (opts : option CinnamonCorsOptions) (framework : Cinnamon) :
  devModeOverride (constructor opts) framework
  = negb (JS.truthy_bool (configured ignoreDevMode opts)) && inDevMode framework.
Proof.
  destruct opts as [o|].
  - apply devModeOverride_constructor.
  - reflexivity.
Qed.

Lemma lenientMiddleware_run (dev : bool) (next : M unit) (ctx : Context) :
  lenientMiddleware dev next ctx
  = next
      (with_header "access-control-expose-headers" "*"
        (with_header "access-control-allow-methods" "*"
          (with_header "access-control-allow-headers" "*"
            (with_header "access-control-allow-origin" "*"
              (with_header "access-control-allow-credentials" "true" ctx))))).
Proof. reflexivity. Qed.

(** C2, amended: when [ignoreDevMode] is false or unset and the framework
    is in development mode while [beforeRegisterControllers] runs, the
    override is active and every request gets the five lenient headers,
    whatever the other options are and whatever the flag reads when the
    request is handled; when [ignoreDevMode] is [true] the override is
    inactive, in development mode too, and the configured policy is what
    serves the request. *)
Theorem override_lenient_headers
  (opts : option CinnamonCorsOptions) (dev_reg dev_req : bool) (ctx : Context) :
  (JS.truthy_bool (configured ignoreDevMode opts) = false ->
   dev_reg = true ->
   devModeOverride (constructor opts) (newFramework dev_reg) = true /\
   snd (serve opts dev_reg dev_req ctx) = inr tt /\
   header_after (serve opts dev_reg dev_req ctx)
     "access-control-allow-credentials" = Some "true" /\
   header_after (serve opts dev_reg dev_req ctx)
     "access-control-allow-origin" = Some "*" /\
   header_after (serve opts dev_reg dev_req ctx)
     "access-control-allow-headers" = Some "*" /\
   header_after (serve opts dev_reg dev_req ctx)
     "access-control-allow-methods" = Some "*" /\
   header_after (serve opts dev_reg dev_req ctx)
     "access-control-expose-headers" = Some "*")
  /\
  (JS.truthy_bool (configured ignoreDevMode opts) = true ->
   devModeOverride (constructor opts) (newFramework dev_reg) = false /\
   serve opts dev_reg dev_req
   = policyMiddleware (constructor opts) dev_req (ret tt)).
Proof.
  split.
  - intros Hign ->.
    assert (E : devModeOverride (constructor opts) (newFramework true) = true).
    { rewrite devModeOverride_configured, Hign. reflexivity. }
    split; [exact E|].
    rewrite (serve_active _ _ dev_req E), lenientMiddleware_run.
    unfold header_after. cbn [fst snd ret].
    repeat split; read_header.
  - intros Hign.
    assert (E : devModeOverride (constructor opts) (newFramework dev_reg) = false).
    { rewrite devModeOverride_configured, Hign. reflexivity. }
    split; [exact E|]. by apply serve_inactive.
Qed.

(** ** What a handler may touch *)

(** Membership and inclusion goals on lists of header names. *)
Ltac names :=
  unfold cors_headers;
  match goal with
  | |- _ ⊆ _ => let k := fresh in intros k; rewrite !elem_of_cons; tauto
  | |- _ ∉ _ => rewrite !not_elem_of_cons; repeat split;
                first [done | congruence | apply not_elem_of_nil]
  | |- _ ∈ _ => rewrite !elem_of_cons; intuition congruence
  end.

Lemma same_but_refl (names : list string) (ctx : Context) :
  same_but names ctx ctx.
Proof. by repeat split. Qed.

Lemma same_but_trans (names : list string) (c1 c2 c3 : Context) :
  same_but names c1 c2 -> same_but names c2 c3 -> same_but names c1 c3.
Proof.
  intros (Hr & Hs & Hb & Hh) (Hr' & Hs' & Hb' & Hh').
  repeat split; try congruence.
  intros k Hk. rewrite Hh', Hh; done.
Qed.

Lemma same_but_weaken (names names' : list string) (c1 c2 : Context) :
  names ⊆ names' -> same_but names c1 c2 -> same_but names' c1 c2.
Proof.
  intros Hsub (Hr & Hs & Hb & Hh). repeat split; try done.
  intros k Hk. apply Hh. intros Hin. apply Hk, Hsub, Hin.
Qed.

Lemma same_but_with_header (names : list string) (name value : string)
  (ctx : Context) :
  name ∈ names -> same_but names ctx (with_header name value ctx).
Proof.
  intros Hin. repeat split; try done.
  intros k Hk. apply lookup_with_header_ne. intros ->. by apply Hk.
Qed.

(** ** The three list headers (lines 250-308) *)

Lemma list_header_returns (name : string) (v : option JS.Policy) (ctx : Context) :
  snd (list_header name v ctx) = inr tt.
Proof.
  unfold list_header. destruct (JS.truthy v); [|reflexivity].
  destruct v; reflexivity.
Qed.

Lemma list_header_run (name : string) (v : option JS.Policy) (ctx : Context) :
  list_header name v ctx = (fst (list_header name v ctx), inr tt).
Proof.
  rewrite <- (list_header_returns name v ctx).
  by destruct (list_header name v ctx).
Qed.

Lemma list_header_same_but (name : string) (v : option JS.Policy) (ctx : Context) :
  same_but [name] ctx (fst (list_header name v ctx)).
Proof.
  unfold list_header. destruct (JS.truthy v); [|apply same_but_refl].
  destruct v; [|apply same_but_refl].
  apply same_but_with_header. names.
Qed.

Lemma list_header_other (name k : string) (v : option JS.Policy) (ctx : Context) :
  name <> k ->
  headers (response (fst (list_header name v ctx))) !! k
  = headers (response ctx) !! k.
Proof.
  intros Hne. apply (list_header_same_but name v ctx). names.
Qed.

Lemma list_header_written (name : string) (v : option JS.Policy) (ctx : Context) :
  headers (response (fst (list_header name v ctx))) !! name
  = match v with
    | Some p => if JS.truthy v then Some (header_value p)
                else headers (response ctx) !! name
    | None => headers (response ctx) !! name
    end.
Proof.
  unfold list_header. destruct v as [p|]; [|reflexivity].
  destruct (JS.truthy (Some p)); [|reflexivity].
  cbn [fst response_set]. rewrite lookup_with_header. by case_decide.
Qed.

(** ** The allowOrigins block (lines 208-248) *)

Lemma includes_In (l : list string) (x : string) :
  JS.includes l x = true <-> In x l.
Proof.
  induction l as [|y l IH]; simpl.
  - split; [discriminate | tauto].
  - rewrite orb_true_iff, IH, String.eqb_eq. tauto.
Qed.

Lemma includes_lowered (l : list string) (s : string) :
  JS.includes (map JS.toLowerCase l) (JS.toLowerCase s) = true
  <-> exists e, In e l /\ JS.toLowerCase e = JS.toLowerCase s.
Proof.
  rewrite includes_In, in_map_iff. split; intros (e & H1 & H2); eauto.
Qed.

Lemma origin_header_multi (l : list string) (ctx : Context) (s : string) :
  (1 < length l)%nat ->
  requestOrigin (request ctx) = Some s ->
  origin_header (Some (JS.Arr l)) ctx
  = (if JS.includes l (JS.toLowerCase s)
     then with_header "access-control-allow-origin" (JS.toLowerCase s) ctx
     else ctx, inr tt).
Proof.
  intros Hlen Hs. destruct l as [|x [|y l]]; simpl in Hlen; try lia.
  unfold origin_header. cbn [JS.truthy].
  unfold mbind, M_bind, bind, request_get. cbn beta iota.
  change (JS.nullish (get (request ctx) "Origin") (get (request ctx) "Host"))
    with (requestOrigin (request ctx)).
  rewrite Hs. cbn [call_toLowerCase ret].
  destruct (JS.includes (x :: y :: l) (JS.toLowerCase s)); reflexivity.
Qed.

Lemma origin_header_throws (l : list string) (ctx : Context) :
  (1 < length l)%nat ->
  requestOrigin (request ctx) = None ->
  origin_header (Some (JS.Arr l)) ctx = (ctx, inl JS.TypeError).
Proof.
  intros Hlen Hs. destruct l as [|x [|y l]]; simpl in Hlen; try lia.
  unfold origin_header. cbn [JS.truthy].
  unfold mbind, M_bind, bind, request_get. cbn beta iota.
  change (JS.nullish (get (request ctx) "Origin") (get (request ctx) "Host"))
    with (requestOrigin (request ctx)).
  rewrite Hs. reflexivity.
Qed.

Lemma origin_header_same_but (v : option JS.Policy) (ctx : Context) :
  same_but ["access-control-allow-origin"] ctx (fst (origin_header v ctx)).
Proof.
  assert (Hset : forall value,
    same_but ["access-control-allow-origin"] ctx
      (with_header "access-control-allow-origin" value ctx)).
  { intros. apply same_but_with_header. names. }
  destruct v as [[s|l]|]; try apply same_but_refl.
  - unfold origin_header. destruct (JS.truthy (Some (JS.Str s)));
      [|apply same_but_refl].
    destruct (JS.includes ["*"; "any"] s); apply Hset.
  - destruct l as [|x [|y l]]; [apply same_but_refl | apply Hset |].
    destruct (requestOrigin (request ctx)) as [s|] eqn:E.
    + rewrite (origin_header_multi _ _ s); [|simpl; lia|done].
      destruct (JS.includes _ _); [apply Hset | apply same_but_refl].
    + rewrite origin_header_throws; [apply same_but_refl|simpl; lia|done].
Qed.

(** The block throws exactly when it has to lower-case an origin that
    neither [Origin] nor [Host] provides. *)
Lemma origin_header_raises (v : option JS.Policy) (ctx : Context) :
  snd (origin_header v ctx) = inl JS.TypeError
  <-> exists l, v = Some (JS.Arr l) /\ (1 < length l)%nat /\
                requestOrigin (request ctx) = None.
Proof.
  split.
  - destruct v as [[s|l]|]; try discriminate.
    + unfold origin_header. destruct (JS.truthy _); [|discriminate].
      destruct (JS.includes _ s); discriminate.
    + destruct l as [|x [|y l]]; try discriminate.
      destruct (requestOrigin (request ctx)) as [s|] eqn:E.
      * rewrite (origin_header_multi _ _ s); [discriminate|simpl; lia|done].
      * intros _. exists (x :: y :: l). split; [done|]. split; [simpl; lia|done].
  - intros (l & -> & Hlen & Hs). by rewrite origin_header_throws.
Qed.

(** ** The policy handler as a whole *)

Lemma policyMiddleware_run (this : CinnamonCors) (dev : bool) (next : M unit)
  (ctx : Context) :
  policyMiddleware this dev next ctx
  = match origin_header (allowOrigins (options this)) (at_origin_block this ctx) with
    | (c, inr _) => next (after_list_headers this c)
    | (c, inl e) => (c, inl e)
    end.
Proof.
  unfold policyMiddleware, at_origin_block, after_list_headers.
  rewrite run_bind, run_response_set, run_bind.
  destruct (JS.truthy_bool (allowCredentials (options this)));
    (rewrite ?run_response_set, ?run_ret, run_bind;
     destruct (origin_header _ _) as [c [e|[]]]; [reflexivity|];
     rewrite run_bind, list_header_run, run_bind, list_header_run, run_bind,
       list_header_run; reflexivity).
Qed.

Lemma at_origin_block_same_but (this : CinnamonCors) (ctx : Context) :
  same_but ["access-control-allow-credentials"; "access-control-allow-origin"]
    ctx (at_origin_block this ctx).
Proof.
  unfold at_origin_block.
  destruct (JS.truthy_bool _).
  - eapply same_but_trans; apply same_but_with_header; names.
  - apply same_but_with_header; names.
Qed.

Lemma at_origin_block_request (this : CinnamonCors) (ctx : Context) :
  request (at_origin_block this ctx) = request ctx.
Proof. apply at_origin_block_same_but. Qed.

Lemma at_origin_block_origin (this : CinnamonCors) (ctx : Context) :
  headers (response (at_origin_block this ctx)) !! "access-control-allow-origin"
  = Some "*".
Proof.
  unfold at_origin_block. destruct (JS.truthy_bool _); read_header.
Qed.

Lemma after_list_headers_same_but (this : CinnamonCors) (ctx : Context) :
  same_but [ "access-control-allow-headers"; "access-control-allow-methods";
             "access-control-expose-headers" ]
    ctx (after_list_headers this ctx).
Proof.
  unfold after_list_headers.
  eapply same_but_trans; [eapply same_but_trans|];
    (eapply same_but_weaken; [|apply list_header_same_but]); names.
Qed.

Lemma after_list_headers_origin (this : CinnamonCors) (ctx : Context) :
  headers (response (after_list_headers this ctx)) !! "access-control-allow-origin"
  = headers (response ctx) !! "access-control-allow-origin".
Proof.
  apply after_list_headers_same_but. names.
Qed.

(** ** What the constructor does to the options *)

Lemma constructor_allowOrigins (o : CinnamonCorsOptions) :
  allowOrigins (options (constructor (Some o)))
  = match allowOrigins o with
    | Some (JS.Arr l) => Some (JS.Arr (map JS.toLowerCase l))
    | v => v
    end.
Proof.
  unfold constructor.
  destruct o as [c [[s|l]|] ah am eh [[|]|]]; reflexivity.
Qed.

Lemma constructor_others (o : CinnamonCorsOptions) :
  allowCredentials (options (constructor (Some o))) = allowCredentials o /\
  allowHeaders (options (constructor (Some o))) = allowHeaders o /\
  allowMethods (options (constructor (Some o))) = allowMethods o /\
  exposeHeaders (options (constructor (Some o))) = exposeHeaders o.
Proof.
  unfold constructor.
  destruct o as [c [[s|l]|] ah am eh [[|]|]]; repeat split.
Qed.

(** ** allowOrigins with several entries *)

Lemma serve_multi_origin (o : CinnamonCorsOptions) (l : list string)
  (dev_reg dev_req : bool) (ctx : Context) (s : string) :
  allowOrigins o = Some (JS.Arr l) ->
  (1 < length l)%nat ->
  devModeOverride (constructor (Some o)) (newFramework dev_reg) = false ->
  requestOrigin (request ctx) = Some s ->
  snd (serve (Some o) dev_reg dev_req ctx) = inr tt /\
  header_after (serve (Some o) dev_reg dev_req ctx) "access-control-allow-origin"
  = if JS.includes (map JS.toLowerCase l) (JS.toLowerCase s)
    then Some (JS.toLowerCase s) else Some "*".
Proof.
  intros Ho Hlen Hov Hs.
  rewrite (serve_inactive _ _ dev_req Hov), policyMiddleware_run.
  rewrite constructor_allowOrigins, Ho.
  rewrite (origin_header_multi _ _ s);
    [|by rewrite length_map|by rewrite at_origin_block_request].
  unfold header_after. cbn [fst snd ret]. split; [reflexivity|].
  rewrite after_list_headers_origin.
  destruct (JS.includes _ _).
  - read_header.
  - apply at_origin_block_origin.
Qed.



(** With several allowed origins and the override inactive, a request for
    which [Origin ?? Host] equals an entry of the list up to letter case
    gets [access-control-allow-origin] set to that entry in lower case. *)
Lemma multi_origin_match_echoes_lowercase
  (o : CinnamonCorsOptions) (l : list string) (dev_reg dev_req : bool)
  (ctx : Context) (s e : string) :
  allowOrigins o = Some (JS.Arr l) ->
  (1 < length l)%nat ->
  devModeOverride (constructor (Some o)) (newFramework dev_reg) = false ->
  requestOrigin (request ctx) = Some s ->
  In e l ->
  JS.toLowerCase e = JS.toLowerCase s ->
  snd (serve (Some o) dev_reg dev_req ctx) = inr tt /\
  header_after (serve (Some o) dev_reg dev_req ctx) "access-control-allow-origin"
  = Some (JS.toLowerCase e).
Proof.
  intros Ho Hlen Hov Hs Hin He.
  destruct (serve_multi_origin o l dev_reg dev_req ctx s Ho Hlen Hov Hs)
    as [Hr Hh].
  split; [exact Hr|]. rewrite Hh, He.
  assert (E : JS.includes (map JS.toLowerCase l) (JS.toLowerCase s) = true).
  { apply includes_lowered. eauto. }
  by rewrite E.
Qed.

(** ** Empty lists *)

Lemma constructor_options (o : CinnamonCorsOptions) :
  options (constructor (Some o))
  = {| allowCredentials := allowCredentials o;
       allowOrigins := match allowOrigins o with
                       | Some (JS.Arr l) => Some (JS.Arr (map JS.toLowerCase l))
                       | v => v
                       end;
       allowHeaders := allowHeaders o;
       allowMethods := allowMethods o;
       exposeHeaders := exposeHeaders o;
       ignoreDevMode := Some (JS.truthy_bool (ignoreDevMode o)) |}.
Proof.
  unfold constructor.
  destruct o as [c [[s|l]|] ah am eh [[|]|]]; reflexivity.
Qed.

Lemma list_header_past_write (name n x : string) (v : option JS.Policy)
  (ctx : Context) :
  name <> n ->
  fst (list_header name v (with_header n x ctx))
  = with_header n x (fst (list_header name v ctx)).
Proof.
  intros Hne. unfold list_header.
  destruct (JS.truthy v); [|reflexivity].
  destruct v as [p|]; [|reflexivity].
  cbn [fst response_set]. by apply with_header_commute.
Qed.

(** C4, amended: with the override inactive an empty list never changes
    whether the evaluation raises.  An empty [allowOrigins] is served
    exactly as an unset one.  An empty [allowHeaders], [allowMethods] or
    [exposeHeaders] is served as an unset one followed by one more write:
    its header, with the empty string as value. *)
Theorem empty_list_policy
  (o : CinnamonCorsOptions) (dev_reg dev_req : bool) (ctx : Context) :
  devModeOverride (constructor (Some o)) (newFramework dev_reg) = false ->
  serve (Some (set_allowOrigins (Some (JS.Arr [])) o)) dev_reg dev_req ctx
  = serve (Some (set_allowOrigins None o)) dev_reg dev_req ctx
  /\
  serve (Some (set_allowHeaders (Some (JS.Arr [])) o)) dev_reg dev_req ctx
  = (serve (Some (set_allowHeaders None o)) dev_reg dev_req ;;
     response_set "access-control-allow-headers" EmptyString) ctx
  /\
  serve (Some (set_allowMethods (Some (JS.Arr [])) o)) dev_reg dev_req ctx
  = (serve (Some (set_allowMethods None o)) dev_reg dev_req ;;
     response_set "access-control-allow-methods" EmptyString) ctx
  /\
  serve (Some (set_exposeHeaders (Some (JS.Arr [])) o)) dev_reg dev_req ctx
  = (serve (Some (set_exposeHeaders None o)) dev_reg dev_req ;;
     response_set "access-control-expose-headers" EmptyString) ctx.
Proof.
  intros Hov. rewrite devModeOverride_constructor in Hov.
  assert (Hserve : forall o', ignoreDevMode o' = ignoreDevMode o ->
    serve (Some o') dev_reg dev_req
    = policyMiddleware (constructor (Some o')) dev_req (ret tt)).
  { intros o' Ho'. apply serve_inactive.
    by rewrite devModeOverride_constructor, Ho'. }
  rewrite run_bind, run_bind, run_bind.
  rewrite !Hserve by reflexivity.
  rewrite !policyMiddleware_run.
  unfold at_origin_block, after_list_headers.
  rewrite !constructor_options.
  cbn [allowCredentials allowOrigins allowHeaders allowMethods exposeHeaders
       set_allowOrigins set_allowHeaders set_allowMethods set_exposeHeaders].
  split; [|split; [|split]].
  - reflexivity.
  - destruct (origin_header _ _) as [c [e|[]]]; [reflexivity|].
    cbn [ret]. rewrite run_response_set. f_equal.
    change (list_header "access-control-allow-headers" (Some (JS.Arr [])) c)
      with (response_set "access-control-allow-headers" EmptyString c).
    change (list_header "access-control-allow-headers" None c) with (ret tt c).
    cbn [fst response_set ret].
    by rewrite !list_header_past_write.
  - destruct (origin_header _ _) as [c [e|[]]]; [reflexivity|].
    cbn [ret]. rewrite run_response_set. f_equal.
    set (c1 := fst (list_header "access-control-allow-headers" _ c)).
    change (list_header "access-control-allow-methods" (Some (JS.Arr [])) c1)
      with (response_set "access-control-allow-methods" EmptyString c1).
    change (list_header "access-control-allow-methods" None c1) with (ret tt c1).
    cbn [fst response_set ret].
    by rewrite !list_header_past_write.
  - destruct (origin_header _ _) as [c [e|[]]]; reflexivity.
Qed.

(** ** The three list headers under the policy handler *)

Lemma wildcard_includes (s : string) :
  JS.includes ["*"; "any"] s = true <-> s = "*" \/ s = "any".
Proof.
  rewrite includes_In. simpl. intuition congruence.
Qed.

Lemma header_value_bare (s : string) :
  s <> "*" -> s <> "any" -> header_value (JS.Str s) = s.
Proof.
  intros H1 H2. unfold header_value.
  destruct (JS.includes ["*"; "any"] s) eqn:E; [|reflexivity].
  apply wildcard_includes in E. tauto.
Qed.

Lemma list_header_outcome (name : string) (v : option JS.Policy) (ctx : Context) :
  list_policy_outcome v
    (headers (response ctx) !! name)
    (headers (response (fst (list_header name v ctx))) !! name).
Proof.
  rewrite list_header_written. unfold list_policy_outcome.
  split; [by intros ->|]. split; [by intros [-> | ->]|].
  split; [by intros l ->|].
  split.
  - intros s -> H1 H2 H3. cbn [JS.truthy].
    destruct (String.eqb_spec s EmptyString); [done|].
    cbn [negb]. by rewrite header_value_bare.
  - by intros ->.
Qed.

(** The headers the plugin has not written when lines 250-308 start. *)
Lemma before_list_headers (this : CinnamonCors) (ctx : Context) (k : string) :
  k ∉ ["access-control-allow-credentials"; "access-control-allow-origin"] ->
  headers (response (fst (origin_header (allowOrigins (options this))
                            (at_origin_block this ctx)))) !! k
  = headers (response ctx) !! k.
Proof.
  intros Hk.
  transitivity (headers (response (at_origin_block this ctx)) !! k).
  - apply origin_header_same_but. revert Hk. rewrite !not_elem_of_cons. tauto.
  - by apply at_origin_block_same_but.
Qed.

(** C6, amended: with the override inactive, whenever the evaluation
    completes, each of [access-control-allow-headers],
    [access-control-allow-methods] and [access-control-expose-headers]
    follows its own option alone: left alone when unset, [*] for a wildcard
    marker, the joined entries for a list, the string itself for a bare
    string that is neither a marker nor empty. *)
Theorem list_headers_follow_policy
  (o : CinnamonCorsOptions) (dev_reg dev_req : bool) (ctx ctx' : Context) :
  devModeOverride (constructor (Some o)) (newFramework dev_reg) = false ->
  serve (Some o) dev_reg dev_req ctx = (ctx', inr tt) ->
  list_policy_outcome (allowHeaders o)
    (headers (response ctx) !! "access-control-allow-headers")
    (headers (response ctx') !! "access-control-allow-headers") /\
  list_policy_outcome (allowMethods o)
    (headers (response ctx) !! "access-control-allow-methods")
    (headers (response ctx') !! "access-control-allow-methods") /\
  list_policy_outcome (exposeHeaders o)
    (headers (response ctx) !! "access-control-expose-headers")
    (headers (response ctx') !! "access-control-expose-headers").
Proof.
  intros Hov Hrun.
  rewrite (serve_inactive _ _ dev_req Hov), policyMiddleware_run in Hrun.
  pose proof (before_list_headers (constructor (Some o)) ctx) as Hbefore.
  destruct (origin_header _ _) as [c [e|[]]]; [discriminate|].
  cbn [ret] in Hrun. injection Hrun as <-.
  cbn [fst] in Hbefore. unfold after_list_headers.
  destruct (constructor_others o) as (_ & -> & -> & ->).
  split; [|split].
  - rewrite !list_header_other by done.
    rewrite <- (Hbefore "access-control-allow-headers") by names.
    apply list_header_outcome.
  - rewrite list_header_other by done.
    rewrite <- (Hbefore "access-control-allow-methods") by names.
    rewrite <- (list_header_other "access-control-allow-headers"
                  "access-control-allow-methods" (allowHeaders o) c) by done.
    apply list_header_outcome.
  - rewrite <- (Hbefore "access-control-expose-headers") by names.
    rewrite <- (list_header_other "access-control-allow-headers"
                  "access-control-expose-headers" (allowHeaders o) c) by done.
    rewrite <- (list_header_other "access-control-allow-methods"
                  "access-control-expose-headers" (allowMethods o)
                  (fst (list_header "access-control-allow-headers"
                          (allowHeaders o) c))) by done.
    apply list_header_outcome.
Qed.

(** ** Credentials *)

Lemma constructor_allowCredentials (opts : option CinnamonCorsOptions) :
  allowCredentials (options (constructor opts))
  = configured allowCredentials opts.
Proof.
  destruct opts as [o|]; [|reflexivity]. apply constructor_others.
Qed.

Lemma policyMiddleware_credentials (this : CinnamonCors) (dev : bool)
  (ctx : Context) :
  header_after (policyMiddleware this dev (ret tt) ctx)
    "access-control-allow-credentials"
  = if JS.truthy_bool (allowCredentials (options this)) then Some "true"
    else headers (response ctx) !! "access-control-allow-credentials".
Proof.
  unfold header_after. rewrite policyMiddleware_run.
  transitivity (headers (response (at_origin_block this ctx))
                  !! "access-control-allow-credentials").
  - pose proof (origin_header_same_but (allowOrigins (options this))
                  (at_origin_block this ctx)) as Ho.
    destruct (origin_header _ _) as [c [e|[]]]; cbn [fst ret] in *.
    + apply Ho. names.
    + transitivity (headers (response c) !! "access-control-allow-credentials").
      * apply after_list_headers_same_but. names.
      * apply Ho. names.
  - unfold at_origin_block. destruct (JS.truthy_bool _); read_header.
Qed.

(** C7: with the override inactive, [access-control-allow-credentials] is
    written, with the value [true], exactly when [allowCredentials] is
    truthy; otherwise the handler leaves the header as the response had it
    (absent on a fresh response), so it never comes out as [false] through
    the plugin. *)
Theorem credentials_header
  (opts : option CinnamonCorsOptions) (dev_reg dev_req : bool) (ctx : Context) :
  devModeOverride (constructor opts) (newFramework dev_reg) = false ->
  (JS.truthy_bool (configured allowCredentials opts) = true ->
   header_after (serve opts dev_reg dev_req ctx)
     "access-control-allow-credentials" = Some "true") /\
  (JS.truthy_bool (configured allowCredentials opts) = false ->
   header_after (serve opts dev_reg dev_req ctx)
     "access-control-allow-credentials"
   = headers (response ctx) !! "access-control-allow-credentials") /\
  (header_after (serve opts dev_reg dev_req ctx)
     "access-control-allow-credentials" = Some "false" ->
   headers (response ctx) !! "access-control-allow-credentials" = Some "false").
Proof.
  intros Hov.
  rewrite (serve_inactive _ _ dev_req Hov), policyMiddleware_credentials,
    constructor_allowCredentials.
  destruct (JS.truthy_bool _); repeat split; try done.
Qed.

(** ** Absent request headers *)

Lemma serve_raises (o : CinnamonCorsOptions) (dev_reg dev_req : bool)
  (ctx : Context) :
  devModeOverride (constructor (Some o)) (newFramework dev_reg) = false ->
  snd (serve (Some o) dev_reg dev_req ctx) = inl JS.TypeError
  <-> exists l, allowOrigins o = Some (JS.Arr l) /\ (1 < length l)%nat /\
                requestOrigin (request ctx) = None.
Proof.
  intros Hov.
  rewrite (serve_inactive _ _ dev_req Hov), policyMiddleware_run.
  set (c0 := at_origin_block (constructor (Some o)) ctx).
  set (v := allowOrigins (options (constructor (Some o)))).
  assert (Hsnd :
    snd (match origin_header v c0 with
         | (c, inr _) => ret tt (after_list_headers (constructor (Some o)) c)
         | (c, inl e) => (c, inl e)
         end) = snd (origin_header v c0)).
  { destruct (origin_header v c0) as [c [[]|[]]]; reflexivity. }
  rewrite Hsnd, origin_header_raises. subst c0 v.
  rewrite at_origin_block_request, constructor_allowOrigins.
  split; intros (l & Hl & Hlen & Hnone).
  - destruct (allowOrigins o) as [[s|l0]|]; try discriminate.
    injection Hl as <-. rewrite length_map in Hlen. eauto.
  - exists (map JS.toLowerCase l). rewrite Hl, length_map. eauto.
Qed.

Lemma host_accessor_origin (r : Request) :
  host_accessor r -> requestOrigin r <> None.
Proof.
  intros Hacc. unfold requestOrigin, JS.nullish.
  destruct (get r "Origin") eqn:E; [discriminate|]. by apply Hacc in E.
Qed.

Lemma host_accessor_hostRequest (origin host : string) :
  host_accessor (hostRequest origin host).
Proof.
  intros name. unfold hostRequest. cbn [get].
  destruct (String.eqb name "Origin"); [discriminate|].
  destruct (String.eqb name "Host"); discriminate.
Qed.

Lemma policyMiddleware_returns (this : CinnamonCors) (dev : bool) (ctx : Context) :
  requestOrigin (request ctx) <> None ->
  snd (policyMiddleware this dev (ret tt) ctx) = inr tt.
Proof.
  intros Hsome. rewrite policyMiddleware_run.
  destruct (origin_header _ _) as [c [[]|[]]] eqn:E; [|reflexivity].
  exfalso.
  assert (Hraise : snd (origin_header (allowOrigins (options this))
                          (at_origin_block this ctx)) = inl JS.TypeError).
  { by rewrite E. }
  apply origin_header_raises in Hraise.
  destruct Hraise as (l & _ & _ & Hnone).
  rewrite at_origin_block_request in Hnone. contradiction.
Qed.

(** C8: for every configuration, in every mode, and for every request the
    host hands over (its accessor answers a string for every header, the
    empty one for an absent [Origin] or [Host]), the evaluation completes
    without raising. *)
Theorem evaluation_never_raises
  (opts : option CinnamonCorsOptions) (dev_reg dev_req : bool) (ctx : Context) :
  host_accessor (request ctx) ->
  snd (serve opts dev_reg dev_req ctx) = inr tt.
Proof.
  intros Hacc.
  destruct (devModeOverride (constructor opts) (newFramework dev_reg)) eqn:Hov.
  - by rewrite (serve_active _ _ dev_req Hov).
  - rewrite (serve_inactive _ _ dev_req Hov).
    by apply policyMiddleware_returns, host_accessor_origin.
Qed.

(** ** Delegation *)

Lemma lenientMiddleware_delegates (dev : bool) (ctx : Context) :
  exists ctx', same_but cors_headers ctx ctx' /\
    forall next, lenientMiddleware dev next ctx = next ctx'.
Proof.
  eexists. split; [|intros next; apply lenientMiddleware_run].
  repeat (eapply same_but_trans; [|apply same_but_with_header; names]).
  apply same_but_refl.
Qed.

Lemma policyMiddleware_same_but (this : CinnamonCors) (dev : bool) (ctx : Context) :
  same_but cors_headers ctx (fst (policyMiddleware this dev (ret tt) ctx)).
Proof.
  rewrite policyMiddleware_run.
  assert (H1 : same_but cors_headers ctx (at_origin_block this ctx)).
  { eapply same_but_weaken; [|apply at_origin_block_same_but]. names. }
  assert (H2 : same_but cors_headers (at_origin_block this ctx)
                 (fst (origin_header (allowOrigins (options this))
                         (at_origin_block this ctx)))).
  { eapply same_but_weaken; [|apply origin_header_same_but]. names. }
  destruct (origin_header _ _) as [c [e|[]]]; cbn [fst ret] in *.
  - by eapply same_but_trans.
  - eapply same_but_trans; [by eapply same_but_trans|].
    eapply same_but_weaken; [|apply after_list_headers_same_but]. names.
Qed.

(** When it does not throw, the policy handler hands an exchange object
    that differs in the five headers only to [next]. *)
Lemma policyMiddleware_delegates (this : CinnamonCors) (dev : bool) (ctx : Context) :
  snd (policyMiddleware this dev (ret tt) ctx) = inr tt ->
  exists ctx', same_but cors_headers ctx ctx' /\
    forall next, policyMiddleware this dev next ctx = next ctx'.
Proof.
  intros Hok. pose proof (policyMiddleware_same_but this dev ctx) as Hsame.
  rewrite policyMiddleware_run in Hok, Hsame.
  destruct (origin_header _ _) as [c [e|[]]] eqn:E; [discriminate|].
  exists (after_list_headers this c). split; [exact Hsame|].
  intros next. by rewrite policyMiddleware_run, E.
Qed.

(** ** What the policy handler reads *)

Lemma with_header_response (name value : string) (c1 c2 : Context) :
  response c1 = response c2 ->
  response (with_header name value c1) = response (with_header name value c2).
Proof. intros H. unfold with_header. simpl. by rewrite H. Qed.

Lemma list_header_response (name : string) (v : option JS.Policy)
  (c1 c2 : Context) :
  response c1 = response c2 ->
  response (fst (list_header name v c1)) = response (fst (list_header name v c2)).
Proof.
  intros H. unfold list_header.
  destruct (JS.truthy v); [|exact H]. destruct v; [|exact H].
  by apply with_header_response.
Qed.

Lemma origin_header_reads (v : option JS.Policy) (c1 c2 : Context) :
  response c1 = response c2 ->
  requestOrigin (request c1) = requestOrigin (request c2) ->
  response (fst (origin_header v c1)) = response (fst (origin_header v c2)) /\
  snd (origin_header v c1) = snd (origin_header v c2).
Proof.
  intros Hresp Hreq.
  destruct v as [[s|l]|]; [| |by split].
  - unfold origin_header. destruct (JS.truthy _); [|by split].
    destruct (JS.includes _ s); (split; [by apply with_header_response|done]).
  - destruct l as [|x [|y l]]; [by split| |].
    + split; [by apply with_header_response|done].
    + destruct (requestOrigin (request c2)) as [s|] eqn:E.
      * rewrite !(origin_header_multi _ _ s) by (done || simpl; lia).
        destruct (JS.includes _ _); (split; [|done]); [|done].
        by apply with_header_response.
      * rewrite !origin_header_throws by (done || simpl; lia). by split.
Qed.

(** Two exchanges with the same response and the same [Origin] and [Host]
    readings are treated alike, whatever else the requests hold. *)
Lemma policyMiddleware_reads (this : CinnamonCors) (dev : bool) (c1 c2 : Context) :
  response c1 = response c2 ->
  get (request c1) "Origin" = get (request c2) "Origin" ->
  get (request c1) "Host" = get (request c2) "Host" ->
  response (fst (policyMiddleware this dev (ret tt) c1))
  = response (fst (policyMiddleware this dev (ret tt) c2)) /\
  snd (policyMiddleware this dev (ret tt) c1)
  = snd (policyMiddleware this dev (ret tt) c2).
Proof.
  intros Hresp Ho Hh. rewrite !policyMiddleware_run.
  assert (Hat : response (at_origin_block this c1)
                = response (at_origin_block this c2)).
  { unfold at_origin_block.
    destruct (JS.truthy_bool _); repeat apply with_header_response; done. }
  assert (Hreq : requestOrigin (request (at_origin_block this c1))
                 = requestOrigin (request (at_origin_block this c2))).
  { rewrite !at_origin_block_request. unfold requestOrigin. by rewrite Ho, Hh. }
  destruct (origin_header_reads (allowOrigins (options this)) _ _ Hat Hreq)
    as [Hr Hs].
  destruct (origin_header _ (at_origin_block this c1)) as [d1 [e1|[]]];
    destruct (origin_header _ (at_origin_block this c2)) as [d2 [e2|[]]];
    cbn [fst snd ret] in *; try discriminate; split; try done.
  unfold after_list_headers. by repeat apply list_header_response.
Qed.

(** ** A bare string in allowOrigins *)

(** C10, amended: with the override inactive, a bare [allowOrigins] string
    that is neither a wildcard marker nor empty is written to
    [access-control-allow-origin] as it is, for every request; the bare
    empty string is treated as unset and the header stays at [*]; in both
    cases the evaluation completes. *)
Theorem bare_origin_string_verbatim
  (o : CinnamonCorsOptions) (s : string) (dev_reg dev_req : bool) (ctx : Context) :
  allowOrigins o = Some (JS.Str s) ->
  s <> "*" -> s <> "any" ->
  devModeOverride (constructor (Some o)) (newFramework dev_reg) = false ->
  snd (serve (Some o) dev_reg dev_req ctx) = inr tt /\
  (s <> EmptyString ->
   header_after (serve (Some o) dev_reg dev_req ctx) "access-control-allow-origin"
   = Some s) /\
  (s = EmptyString ->
   header_after (serve (Some o) dev_reg dev_req ctx) "access-control-allow-origin"
   = Some "*").
Proof.
  intros Ho H1 H2 Hov.
  rewrite (serve_inactive _ _ dev_req Hov), policyMiddleware_run.
  rewrite constructor_allowOrigins, Ho.
  unfold origin_header. cbn [JS.truthy].
  destruct (String.eqb_spec s EmptyString) as [-> | Hne]; cbn [negb].
  - unfold header_after. cbn [fst snd ret].
    split; [reflexivity|]. split; [done|]. intros _.
    rewrite after_list_headers_origin. apply at_origin_block_origin.
  - destruct (JS.includes ["*"; "any"] s) eqn:E.
    { apply wildcard_includes in E. tauto. }
    rewrite run_response_set. unfold header_after. cbn [fst snd ret].
    split; [reflexivity|]. split; [|done]. intros _.
    rewrite after_list_headers_origin. read_header.
Qed.

(** ** The handler in the pipeline *)

(** C9: for every configuration and every request the host hands over,
    the handler [beforeRegisterControllers] registered calls [next], in
    either mode and every branch, on an exchange object that differs from
    the one it received in the five CORS response headers only (request,
    status and body are untouched); and what it hands on depends on the
    request through the [Origin] and [Host] readings only. *)
Theorem handler_delegates
  (opts : option CinnamonCorsOptions) (dev_reg dev : bool) (ctx : Context) :
  host_accessor (request ctx) ->
  exists (handler : Middleware) (ctx' : Context),
    server (beforeRegisterControllers (constructor opts) (newFramework dev_reg))
    = [handler] /\
    same_but cors_headers ctx ctx' /\
    (forall next, handler dev next ctx = next ctx') /\
    (forall ctx2,
       response ctx2 = response ctx ->
       get (request ctx2) "Origin" = get (request ctx) "Origin" ->
       get (request ctx2) "Host" = get (request ctx) "Host" ->
       exists ctx2', response ctx2' = response ctx' /\
                     forall next, handler dev next ctx2 = next ctx2').
Proof.
  intros Hacc. pose proof (host_accessor_origin _ Hacc) as Hsome.
  unfold beforeRegisterControllers.
  destruct (devModeOverride (constructor opts) (newFramework dev_reg)).
  - exists lenientMiddleware.
    destruct (lenientMiddleware_delegates dev ctx) as (c & Hsame & Hrun).
    exists c. split; [reflexivity|]. split; [exact Hsame|].
    split; [exact Hrun|].
    intros ctx2 Hresp _ _.
    destruct (lenientMiddleware_delegates dev ctx2) as (c2 & _ & Hrun2).
    exists c2. split; [|exact Hrun2].
    specialize (Hrun (ret tt)). specialize (Hrun2 (ret tt)).
    rewrite lenientMiddleware_run in Hrun, Hrun2.
    injection Hrun as <-. injection Hrun2 as <-.
    by repeat apply with_header_response.
  - set (this := constructor opts).
    exists (policyMiddleware this).
    destruct (policyMiddleware_delegates this dev ctx
                (policyMiddleware_returns this dev ctx Hsome))
      as (c & Hsame & Hrun).
    exists c. split; [reflexivity|]. split; [exact Hsame|].
    split; [exact Hrun|].
    intros ctx2 Hresp Ho Hh.
    assert (Hsome2 : requestOrigin (request ctx2) <> None).
    { unfold requestOrigin. by rewrite Ho, Hh. }
    destruct (policyMiddleware_delegates this dev ctx2
                (policyMiddleware_returns this dev ctx2 Hsome2))
      as (c2 & _ & Hrun2).
    exists c2. split; [|exact Hrun2].
    destruct (policyMiddleware_reads this dev ctx2 ctx Hresp Ho Hh) as [Hr _].
    rewrite (Hrun (ret tt)), (Hrun2 (ret tt)) in Hr. exact Hr.
Qed.

(** * Further properties of the plugin *)

(** ** Lower-casing *)

Lemma map_toLowerCase_idem (l : list string) :
  map JS.toLowerCase (map JS.toLowerCase l) = map JS.toLowerCase l.
Proof.
  rewrite map_map. apply map_ext. intros s. apply JS.toLowerCase_idempotent.
Qed.

(** ** The constructor *)

Lemma constructor_allowOrigins_configured (opts : option CinnamonCorsOptions) :
  allowOrigins (options (constructor opts))
  = match configured allowOrigins opts with
    | Some (JS.Arr l) => Some (JS.Arr (map JS.toLowerCase l))
    | v => v
    end.
Proof.
  destruct opts as [o|]; [apply constructor_allowOrigins | reflexivity].
Qed.

(** X1: the override is active exactly when the caller did not pass
    [ignoreDevMode: true] and the framework is in development mode; in
    production it is never active. *)
Theorem override_active_iff
  (opts : option CinnamonCorsOptions) (framework : Cinnamon) :
  devModeOverride (constructor opts) framework = true
  <-> JS.truthy_bool (configured ignoreDevMode opts) = false /\
      inDevMode framework = true.
Proof.
  rewrite devModeOverride_configured.
  destruct (JS.truthy_bool _), (inDevMode framework); simpl;
    intuition congruence.
Qed.

(** X2: when [allowOrigins] is a list the constructor stores its entries
    lower-cased, in the same order, and every stored entry is left as it is
    by [toLowerCase]. *)
Theorem constructor_lowercases_origins
  (o : CinnamonCorsOptions) (l : list string) :
  allowOrigins o = Some (JS.Arr l) ->
  allowOrigins (options (constructor (Some o)))
  = Some (JS.Arr (map JS.toLowerCase l)) /\
  forall e, In e (map JS.toLowerCase l) -> JS.toLowerCase e = e.
Proof.
  intros Ho. split.
  - by rewrite constructor_allowOrigins, Ho.
  - intros e He. apply in_map_iff in He. destruct He as (x & <- & _).
    apply JS.toLowerCase_idempotent.
Qed.

(** X3: constructing a plugin from the options an earlier construction
    stored gives the same plugin: the normalisation of [ignoreDevMode] and
    of the [allowOrigins] list is done once and for all. *)
Theorem constructor_idempotent (opts : option CinnamonCorsOptions) :
  constructor (Some (options (constructor opts))) = constructor opts.
Proof.
  destruct opts as [o|]; [|reflexivity].
  unfold constructor.
  destruct o as [c [[s|l]|] ah am eh [[|]|]];
    cbn [allowOrigins ignoreDevMode set_ignoreDevMode set_allowOrigins
         allowCredentials allowHeaders allowMethods exposeHeaders options];
    try reflexivity;
    by rewrite map_toLowerCase_idem.
Qed.

(** ** The allowOrigins header, shape by shape *)

Lemma serve_origin_header
  (opts : option CinnamonCorsOptions) (dev_reg dev_req : bool) (ctx : Context) :
  devModeOverride (constructor opts) (newFramework dev_reg) = false ->
  header_after (serve opts dev_reg dev_req ctx) "access-control-allow-origin"
  = headers (response (fst (origin_header
                              (allowOrigins (options (constructor opts)))
                              (at_origin_block (constructor opts) ctx))))
      !! "access-control-allow-origin" /\
  snd (serve opts dev_reg dev_req ctx)
  = snd (origin_header (allowOrigins (options (constructor opts)))
           (at_origin_block (constructor opts) ctx)).
Proof.
  intros Hov.
  rewrite (serve_inactive _ _ dev_req Hov), policyMiddleware_run.
  unfold header_after.
  destruct (origin_header _ _) as [c [[]|[]]]; cbn [fst snd ret];
    [by split|].
  split; [apply after_list_headers_origin | reflexivity].
Qed.

Lemma serve_lenient_origin
  (opts : option CinnamonCorsOptions) (dev_reg dev_req : bool) (ctx : Context) :
  devModeOverride (constructor opts) (newFramework dev_reg) = true ->
  snd (serve opts dev_reg dev_req ctx) = inr tt /\
  header_after (serve opts dev_reg dev_req ctx) "access-control-allow-origin"
  = Some "*".
Proof.
  intros Hov. rewrite (serve_active _ _ dev_req Hov), lenientMiddleware_run.
  unfold header_after. cbn [fst snd ret]. split; [reflexivity|read_header].
Qed.

(** X4: when [allowOrigins] is not configured, every request, in every
    mode, is answered with [access-control-allow-origin: *] and the
    evaluation completes. *)
Theorem unset_origins_allow_any
  (opts : option CinnamonCorsOptions) (dev_reg dev_req : bool) (ctx : Context) :
  configured allowOrigins opts = None ->
  snd (serve opts dev_reg dev_req ctx) = inr tt /\
  header_after (serve opts dev_reg dev_req ctx) "access-control-allow-origin"
  = Some "*".
Proof.
  intros Hnone.
  destruct (devModeOverride (constructor opts) (newFramework dev_reg)) eqn:Hov.
  - by apply serve_lenient_origin.
  - destruct (serve_origin_header opts dev_reg dev_req ctx Hov) as [-> ->].
    rewrite constructor_allowOrigins_configured, Hnone.
    split; [reflexivity|]. apply at_origin_block_origin.
Qed.

Lemma origin_header_wildcard (s : string) (ctx : Context) :
  s = "*" \/ s = "any" ->
  origin_header (Some (JS.Str s)) ctx
  = (with_header "access-control-allow-origin" "*" ctx, inr tt).
Proof. intros [-> | ->]; reflexivity. Qed.

Lemma origin_header_single (e : string) (ctx : Context) :
  origin_header (Some (JS.Arr [e])) ctx
  = (with_header "access-control-allow-origin" e ctx, inr tt).
Proof. reflexivity. Qed.

(** X5: when [allowOrigins] is one of the markers ["*"] and ["any"], every
    request, in every mode, is answered with
    [access-control-allow-origin: *] and the evaluation completes. *)
Theorem wildcard_origins_allow_any
  (opts : option CinnamonCorsOptions) (s : string) (dev_reg dev_req : bool)
  (ctx : Context) :
  configured allowOrigins opts = Some (JS.Str s) ->
  s = "*" \/ s = "any" ->
  snd (serve opts dev_reg dev_req ctx) = inr tt /\
  header_after (serve opts dev_reg dev_req ctx) "access-control-allow-origin"
  = Some "*".
Proof.
  intros Hs Hwild.
  destruct (devModeOverride (constructor opts) (newFramework dev_reg)) eqn:Hov.
  - by apply serve_lenient_origin.
  - destruct (serve_origin_header opts dev_reg dev_req ctx Hov) as [-> ->].
    rewrite constructor_allowOrigins_configured, Hs.
    rewrite (origin_header_wildcard s _ Hwild). cbn [fst snd].
    split; [reflexivity|read_header].
Qed.

(** X6: when [allowOrigins] is a list with one entry and the override is
    inactive, every request is answered with that entry in lower case,
    without a look at the request, and the evaluation completes, also for
    a request with neither [Origin] nor [Host]. *)
Theorem single_origin_lowercased
  (opts : option CinnamonCorsOptions) (e : string) (dev_reg dev_req : bool)
  (ctx : Context) :
  configured allowOrigins opts = Some (JS.Arr [e]) ->
  devModeOverride (constructor opts) (newFramework dev_reg) = false ->
  snd (serve opts dev_reg dev_req ctx) = inr tt /\
  header_after (serve opts dev_reg dev_req ctx) "access-control-allow-origin"
  = Some (JS.toLowerCase e).
Proof.
  intros He Hov.
  destruct (serve_origin_header opts dev_reg dev_req ctx Hov) as [-> ->].
  rewrite constructor_allowOrigins_configured, He.
  cbn [map]. rewrite origin_header_single. cbn [fst snd].
  split; [reflexivity|read_header].
Qed.

Lemma origin_header_value (v : option JS.Policy) (ctx : Context) :
  headers (response ctx) !! "access-control-allow-origin" = Some "*" ->
  exists x,
    headers (response (fst (origin_header v ctx))) !! "access-control-allow-origin"
    = Some x /\
    (x = "*" \/ v = Some (JS.Str x) \/
     exists l, v = Some (JS.Arr l) /\ In x l).
Proof.
  intros Hstar.
  destruct v as [[s|l]|].
  - unfold origin_header. destruct (JS.truthy _); [|by exists "*"; auto].
    destruct (JS.includes _ s); cbn [fst response_set].
    + exists "*". split; [read_header|auto].
    + exists s. split; [read_header|auto].
  - destruct l as [|a [|b l]].
    + exists "*". auto.
    + exists a. rewrite origin_header_single. cbn [fst].
      split; [read_header|]. right. right. exists [a]. simpl. auto.
    + destruct (requestOrigin (request ctx)) as [s|] eqn:E.
      * rewrite (origin_header_multi _ _ s) by (done || simpl; lia).
        destruct (JS.includes _ _) eqn:Hin; cbn [fst].
        -- exists (JS.toLowerCase s). split; [read_header|].
           right. right. exists (a :: b :: l). split; [done|].
           by apply includes_In.
        -- exists "*". auto.
      * rewrite origin_header_throws by (done || simpl; lia).
        exists "*". auto.
  - exists "*". auto.
Qed.

(** X7: whatever the configuration, the mode and the request,
    [access-control-allow-origin] is on the response after the handler ran,
    and its value is [*], the configured bare string, or a configured list
    entry in lower case: an origin that was not configured is never
    echoed. *)
Theorem allow_origin_from_configuration
  (opts : option CinnamonCorsOptions) (dev_reg dev_req : bool) (ctx : Context) :
  exists x,
    header_after (serve opts dev_reg dev_req ctx) "access-control-allow-origin"
    = Some x /\
    (x = "*" \/
     configured allowOrigins opts = Some (JS.Str x) \/
     exists l e, configured allowOrigins opts = Some (JS.Arr l) /\
                 In e l /\ x = JS.toLowerCase e).
Proof.
  destruct (devModeOverride (constructor opts) (newFramework dev_reg)) eqn:Hov.
  - exists "*". split; [|auto]. by apply serve_lenient_origin.
  - destruct (serve_origin_header opts dev_reg dev_req ctx Hov) as [-> _].
    destruct (origin_header_value (allowOrigins (options (constructor opts)))
                (at_origin_block (constructor opts) ctx)
                (at_origin_block_origin _ _)) as (x & Hx & Hcases).
    exists x. split; [exact Hx|].
    rewrite constructor_allowOrigins_configured in Hcases.
    destruct Hcases as [->|[Hs|(l' & Hl' & Hin)]]; [auto| |].
    + right. left.
      destruct (configured allowOrigins opts) as [[s|l]|]; try discriminate.
      exact Hs.
    + right. right.
      destruct (configured allowOrigins opts) as [[s|l]|]; try discriminate.
      injection Hl' as <-. apply in_map_iff in Hin.
      destruct Hin as (e & <- & He). eauto.
Qed.

(** X8: the evaluation completes whenever the request has an origin
    ([Origin] or [Host] reads as a string), and also, whatever the request,
    whenever [allowOrigins] is not a list of more than one entry. *)
Theorem evaluation_completes
  (opts : option CinnamonCorsOptions) (dev_reg dev_req : bool) (ctx : Context) :
  requestOrigin (request ctx) <> None \/
  (forall l, configured allowOrigins opts = Some (JS.Arr l) ->
             (length l <= 1)%nat) ->
  snd (serve opts dev_reg dev_req ctx) = inr tt.
Proof.
  intros Hok.
  destruct (devModeOverride (constructor opts) (newFramework dev_reg)) eqn:Hov.
  - by apply serve_lenient_origin.
  - destruct (serve_origin_header opts dev_reg dev_req ctx Hov) as [_ ->].
    destruct (snd (origin_header _ _)) as [[]|[]] eqn:E; [|reflexivity].
    apply origin_header_raises in E. destruct E as (l' & Hl' & Hlen & Hnone).
    rewrite at_origin_block_request in Hnone.
    rewrite constructor_allowOrigins_configured in Hl'.
    destruct Hok as [Hsome | Hshort]; [done|].
    destruct (configured allowOrigins opts) as [[s|l]|]; try discriminate.
    injection Hl' as <-. rewrite length_map in Hlen.
    specialize (Hshort l eq_refl). lia.
Qed.

(** ** What the plugin touches and reads, in every mode *)

Lemma serve_same_but
  (opts : option CinnamonCorsOptions) (dev_reg dev_req : bool) (ctx : Context) :
  same_but cors_headers ctx (fst (serve opts dev_reg dev_req ctx)).
Proof.
  destruct (devModeOverride (constructor opts) (newFramework dev_reg)) eqn:Hov.
  - rewrite (serve_active _ _ dev_req Hov).
    destruct (lenientMiddleware_delegates dev_req ctx) as (c & Hsame & Hrun).
    by rewrite Hrun.
  - rewrite (serve_inactive _ _ dev_req Hov). apply policyMiddleware_same_but.
Qed.

(** X9: in every mode, and also on the run that throws, the handler leaves
    the request, the status, the body and every response header other than
    the five CORS headers as they were. *)
Theorem serve_touches_cors_headers_only
  (opts : option CinnamonCorsOptions) (dev_reg dev_req : bool) (ctx : Context) :
  request (fst (serve opts dev_reg dev_req ctx)) = request ctx /\
  status (response (fst (serve opts dev_reg dev_req ctx)))
  = status (response ctx) /\
  body (response (fst (serve opts dev_reg dev_req ctx))) = body (response ctx) /\
  forall k, k ∉ cors_headers ->
    header_after (serve opts dev_reg dev_req ctx) k
    = headers (response ctx) !! k.
Proof. exact (serve_same_but opts dev_reg dev_req ctx). Qed.

Lemma origin_header_reads_lowered (v : option JS.Policy) (c1 c2 : Context) :
  response c1 = response c2 ->
  lowered_origin (request c1) = lowered_origin (request c2) ->
  response (fst (origin_header v c1)) = response (fst (origin_header v c2)) /\
  snd (origin_header v c1) = snd (origin_header v c2).
Proof.
  intros Hresp Hreq. unfold lowered_origin in Hreq.
  destruct v as [[s|l]|]; [| |by split].
  - unfold origin_header. destruct (JS.truthy _); [|by split].
    destruct (JS.includes _ s); (split; [by apply with_header_response|done]).
  - destruct l as [|x [|y l]]; [by split| |].
    + split; [by apply with_header_response|done].
    + destruct (requestOrigin (request c1)) as [s1|] eqn:E1;
        destruct (requestOrigin (request c2)) as [s2|] eqn:E2;
        try discriminate.
      * injection Hreq as Hlow.
        rewrite (origin_header_multi _ c1 s1), (origin_header_multi _ c2 s2)
          by (done || simpl; lia).
        rewrite Hlow.
        destruct (JS.includes _ _); (split; [|done]); [|done].
        by apply with_header_response.
      * rewrite !origin_header_throws by (done || simpl; lia). by split.
Qed.

Lemma serve_reads_lowered
  (opts : option CinnamonCorsOptions) (dev_reg dev_req : bool) (c1 c2 : Context) :
  response c1 = response c2 ->
  lowered_origin (request c1) = lowered_origin (request c2) ->
  response (fst (serve opts dev_reg dev_req c1))
  = response (fst (serve opts dev_reg dev_req c2)) /\
  snd (serve opts dev_reg dev_req c1) = snd (serve opts dev_reg dev_req c2).
Proof.
  intros Hresp Hreq.
  destruct (devModeOverride (constructor opts) (newFramework dev_reg)) eqn:Hov.
  - rewrite (serve_active _ _ dev_req Hov), !lenientMiddleware_run.
    cbn [fst snd ret]. split; [|reflexivity].
    by repeat apply with_header_response.
  - rewrite (serve_inactive _ _ dev_req Hov), !policyMiddleware_run.
    set (this := constructor opts).
    assert (Hat : response (at_origin_block this c1)
                  = response (at_origin_block this c2)).
    { unfold at_origin_block.
      destruct (JS.truthy_bool _); repeat apply with_header_response; done. }
    assert (Hlow : lowered_origin (request (at_origin_block this c1))
                   = lowered_origin (request (at_origin_block this c2))).
    { by rewrite !at_origin_block_request. }
    destruct (origin_header_reads_lowered (allowOrigins (options this)) _ _
                Hat Hlow) as [Hr Hs].
    destruct (origin_header _ (at_origin_block this c1)) as [d1 [e1|[]]];
      destruct (origin_header _ (at_origin_block this c2)) as [d2 [e2|[]]];
      cbn [fst snd ret] in *; try discriminate; split; try done.
    unfold after_list_headers. by repeat apply list_header_response.
Qed.

(** X10: in every mode the handler reads nothing of the request but what
    [get('Origin')] and [get('Host')] answer: two exchanges with the same
    response and the same two readings end with the same response and the
    same completion, whatever else the requests hold. *)
Theorem serve_reads_origin_and_host
  (opts : option CinnamonCorsOptions) (dev_reg dev_req : bool) (c1 c2 : Context) :
  response c1 = response c2 ->
  get (request c1) "Origin" = get (request c2) "Origin" ->
  get (request c1) "Host" = get (request c2) "Host" ->
  response (fst (serve opts dev_reg dev_req c1))
  = response (fst (serve opts dev_reg dev_req c2)) /\
  snd (serve opts dev_reg dev_req c1) = snd (serve opts dev_reg dev_req c2).
Proof.
  intros Hresp Ho Hh. apply serve_reads_lowered; [exact Hresp|].
  unfold lowered_origin, requestOrigin. by rewrite Ho, Hh.
Qed.

(** X11: the letter case of the request's origin does not matter, and
    [Host] does not matter once [Origin] reads as a string: two exchanges
    with the same response whose origins ([Origin ?? Host]) are equal up to
    letter case end with the same response and the same completion. *)
Theorem origin_letter_case_irrelevant
  (opts : option CinnamonCorsOptions) (dev_reg dev_req : bool) (c1 c2 : Context)
  (s1 s2 : string) :
  response c1 = response c2 ->
  requestOrigin (request c1) = Some s1 ->
  requestOrigin (request c2) = Some s2 ->
  JS.toLowerCase s1 = JS.toLowerCase s2 ->
  response (fst (serve opts dev_reg dev_req c1))
  = response (fst (serve opts dev_reg dev_req c2)) /\
  snd (serve opts dev_reg dev_req c1) = snd (serve opts dev_reg dev_req c2).
Proof.
  intros Hresp H1 H2 Hlow. apply serve_reads_lowered; [exact Hresp|].
  unfold lowered_origin. rewrite H1, H2. cbn. by rewrite Hlow.
Qed.

(** ** Serving the same exchange again *)

Lemma settles_id : settles (fun c => c).
Proof. intros k ca cb _. right. by split. Qed.

Lemma settles_with_header (name value : string) :
  settles (with_header name value).
Proof.
  intros k ca cb _. rewrite !lookup_with_header.
  case_decide; [by left | right; by split].
Qed.

Lemma settles_compose (f g : Context -> Context) :
  (forall ca cb, request ca = request cb -> request (f ca) = request (f cb)) ->
  settles f -> settles g -> settles (fun c => g (f c)).
Proof.
  intros Hreq Hf Hg k ca cb Hab.
  destruct (Hg k (f ca) (f cb) (Hreq ca cb Hab)) as [Heq | [Ha Hb]].
  - by left.
  - rewrite Ha, Hb. apply Hf, Hab.
Qed.

Lemma settles_list_header (name : string) (v : option JS.Policy) :
  settles (fun c => fst (list_header name v c)).
Proof.
  unfold list_header. destruct (JS.truthy v); [|apply settles_id].
  destruct v; [|apply settles_id]. apply settles_with_header.
Qed.

Lemma settles_origin_header (v : option JS.Policy) :
  settles (fun c => fst (origin_header v c)).
Proof.
  destruct v as [[s|l]|]; [| |apply settles_id].
  - unfold origin_header. destruct (JS.truthy _); [|apply settles_id].
    destruct (JS.includes _ s); apply settles_with_header.
  - destruct l as [|x [|y l]];
      [apply settles_id | apply settles_with_header |].
    intros k ca cb Hab.
    destruct (requestOrigin (request cb)) as [s|] eqn:E.
    + rewrite (origin_header_multi _ ca s), (origin_header_multi _ cb s)
        by (done || congruence || simpl; lia).
      destruct (JS.includes _ _); cbn [fst].
      * by apply settles_with_header.
      * by apply settles_id.
    + rewrite (origin_header_throws _ ca), (origin_header_throws _ cb)
        by (done || congruence || simpl; lia).
      by apply settles_id.
Qed.

Lemma settles_at_origin_block (this : CinnamonCors) :
  settles (at_origin_block this).
Proof.
  unfold at_origin_block. destruct (JS.truthy_bool _).
  - apply (settles_compose (with_header _ _) (with_header _ _));
      [by intros ca cb H | apply settles_with_header..].
  - apply settles_with_header.
Qed.

Lemma request_origin_header (v : option JS.Policy) (ctx : Context) :
  request (fst (origin_header v ctx)) = request ctx.
Proof. apply origin_header_same_but. Qed.

Lemma request_list_header (name : string) (v : option JS.Policy) (ctx : Context) :
  request (fst (list_header name v ctx)) = request ctx.
Proof. apply list_header_same_but. Qed.

Lemma settles_after_list_headers (this : CinnamonCors) :
  settles (after_list_headers this).
Proof.
  unfold after_list_headers.
  apply (settles_compose
           (fun c => fst (list_header _ _ (fst (list_header _ _ c))))
           (fun c => fst (list_header _ _ c))).
  - intros ca cb H. by rewrite !request_list_header.
  - apply (settles_compose (fun c => fst (list_header _ _ c))
             (fun c => fst (list_header _ _ c)));
      [intros ca cb H; by rewrite !request_list_header
      | apply settles_list_header..].
  - apply settles_list_header.
Qed.

Lemma origin_header_completion (v : option JS.Policy) (ca cb : Context) :
  request ca = request cb ->
  snd (origin_header v ca) = snd (origin_header v cb).
Proof.
  intros Hab.
  destruct (snd (origin_header v cb)) as [[]|[]] eqn:E.
  - apply origin_header_raises. apply origin_header_raises in E.
    destruct E as (l & ? & ? & ?). exists l. by rewrite Hab.
  - destruct (snd (origin_header v ca)) as [[]|[]] eqn:E'; [|reflexivity].
    apply origin_header_raises in E'. destruct E' as (l & ? & ? & ?).
    assert (snd (origin_header v cb) = inl JS.TypeError) as Hc.
    { apply origin_header_raises. exists l. by rewrite <- Hab. }
    congruence.
Qed.

Lemma serve_completion_request
  (opts : option CinnamonCorsOptions) (dev_reg dev_req : bool) (ca cb : Context) :
  request ca = request cb ->
  snd (serve opts dev_reg dev_req ca) = snd (serve opts dev_reg dev_req cb).
Proof.
  intros Hab.
  destruct (devModeOverride (constructor opts) (newFramework dev_reg)) eqn:Hov.
  - by rewrite (serve_active _ _ dev_req Hov).
  - destruct (serve_origin_header opts dev_reg dev_req ca Hov) as [_ ->].
    destruct (serve_origin_header opts dev_reg dev_req cb Hov) as [_ ->].
    apply origin_header_completion. by rewrite !at_origin_block_request.
Qed.

Lemma settles_serve
  (opts : option CinnamonCorsOptions) (dev_reg dev_req : bool) :
  settles (fun c => fst (serve opts dev_reg dev_req c)).
Proof.
  destruct (devModeOverride (constructor opts) (newFramework dev_reg)) eqn:Hov.
  - rewrite (serve_active _ _ dev_req Hov).
    intros k ca cb _.
    rewrite !lenientMiddleware_run. cbn [fst ret].
    rewrite !lookup_with_header.
    repeat case_decide; (by left) || (right; by split).
  - rewrite (serve_inactive _ _ dev_req Hov).
    set (this := constructor opts).
    assert (Horigin : settles (fun c =>
              fst (origin_header (allowOrigins (options this))
                     (at_origin_block this c)))).
    { apply (settles_compose (at_origin_block this)
               (fun c => fst (origin_header _ c)));
        [ intros ca cb H; by rewrite !at_origin_block_request
        | apply settles_at_origin_block | apply settles_origin_header ]. }
    assert (Hall : settles (fun c =>
              after_list_headers this
                (fst (origin_header (allowOrigins (options this))
                        (at_origin_block this c))))).
    { apply (settles_compose _ (after_list_headers this));
        [ intros ca cb H;
          by rewrite !request_origin_header, !at_origin_block_request
        | exact Horigin | apply settles_after_list_headers ]. }
    intros k ca cb Hab.
    pose proof (origin_header_completion (allowOrigins (options this))
                  (at_origin_block this ca) (at_origin_block this cb)) as Hc.
    rewrite !at_origin_block_request in Hc. specialize (Hc Hab).
    specialize (Horigin k ca cb Hab). specialize (Hall k ca cb Hab).
    cbn beta in Horigin, Hall.
    rewrite !policyMiddleware_run.
    destruct (origin_header _ (at_origin_block this ca)) as [da [ea|[]]];
      destruct (origin_header _ (at_origin_block this cb)) as [db [eb|[]]];
      cbn [fst snd ret] in *; try discriminate; assumption.
Qed.

Lemma context_eq (c1 c2 : Context) :
  request c1 = request c2 ->
  status (response c1) = status (response c2) ->
  body (response c1) = body (response c2) ->
  (forall k, headers (response c1) !! k = headers (response c2) !! k) ->
  c1 = c2.
Proof.
  destruct c1 as [r1 [h1 s1 b1]], c2 as [r2 [h2 s2 b2]]; simpl.
  intros -> -> -> Hh. f_equal. f_equal. by apply map_eq.
Qed.

(** X12: serving the exchange a first run ended with gives that exchange
    again, with the same completion: in every mode the handler is
    idempotent on the exchange object, also on the run that throws. *)
Theorem serve_idempotent
  (opts : option CinnamonCorsOptions) (dev_reg dev_req : bool) (ctx : Context) :
  serve opts dev_reg dev_req (fst (serve opts dev_reg dev_req ctx))
  = serve opts dev_reg dev_req ctx.
Proof.
  set (c1 := fst (serve opts dev_reg dev_req ctx)).
  destruct (serve_same_but opts dev_reg dev_req ctx)
    as (Hreq & _ & _ & _). fold c1 in Hreq.
  destruct (serve_same_but opts dev_reg dev_req c1)
    as (Hreq' & Hst & Hbd & _).
  assert (Hfst : fst (serve opts dev_reg dev_req c1) = c1).
  { apply context_eq; try done.
    intros k.
    destruct (settles_serve opts dev_reg dev_req k c1 ctx Hreq)
      as [Heq | [Hsame _]]; [exact Heq | exact Hsame]. }
  pose proof (serve_completion_request opts dev_reg dev_req c1 ctx Hreq) as Hsnd.
  rewrite (surjective_pairing (serve opts dev_reg dev_req c1)), Hfst, Hsnd.
  subst c1. by destruct (serve opts dev_reg dev_req ctx).
Qed.

(** ** No policy at all *)

(** X13: with the override inactive and none of the five policies
    configured, the whole effect of the handler is one write,
    [access-control-allow-origin: *]; the evaluation completes. *)
Theorem no_policy_writes_origin_only
  (opts : option CinnamonCorsOptions) (dev_reg dev_req : bool) (ctx : Context) :
  devModeOverride (constructor opts) (newFramework dev_reg) = false ->
  JS.truthy_bool (configured allowCredentials opts) = false ->
  configured allowOrigins opts = None ->
  configured allowHeaders opts = None ->
  configured allowMethods opts = None ->
  configured exposeHeaders opts = None ->
  serve opts dev_reg dev_req ctx
  = (with_header "access-control-allow-origin" "*" ctx, inr tt).
Proof.
  intros Hov Hc Ho Hh Hm He.
  rewrite (serve_inactive _ _ dev_req Hov).
  destruct opts as [o|]; [|reflexivity].
  unfold policyMiddleware. rewrite constructor_options.
  cbn [configured] in *.
  cbn [allowCredentials allowOrigins allowHeaders allowMethods exposeHeaders].
  rewrite Hc, Ho, Hh, Hm, He. reflexivity.
Qed.

(** ** The options do not interfere *)

(** X14: the [access-control-allow-origin] header and the completion of the
    evaluation depend on the configuration through [allowOrigins] and
    [ignoreDevMode] only: changing [allowCredentials], [allowHeaders],
    [allowMethods] or [exposeHeaders] changes neither. *)
Theorem allow_origin_ignores_other_options
  (o1 o2 : CinnamonCorsOptions) (dev_reg dev_req : bool) (ctx : Context) :
  allowOrigins o1 = allowOrigins o2 ->
  ignoreDevMode o1 = ignoreDevMode o2 ->
  header_after (serve (Some o1) dev_reg dev_req ctx) "access-control-allow-origin"
  = header_after (serve (Some o2) dev_reg dev_req ctx)
      "access-control-allow-origin" /\
  snd (serve (Some o1) dev_reg dev_req ctx)
  = snd (serve (Some o2) dev_reg dev_req ctx).
Proof.
  intros Ho Hi.
  assert (Hov : devModeOverride (constructor (Some o1)) (newFramework dev_reg)
                = devModeOverride (constructor (Some o2)) (newFramework dev_reg)).
  { by rewrite !devModeOverride_constructor, Hi. }
  destruct (devModeOverride (constructor (Some o2)) (newFramework dev_reg))
    eqn:Hov2.
  - destruct (serve_lenient_origin (Some o1) dev_reg dev_req ctx Hov) as [-> ->].
    by destruct (serve_lenient_origin (Some o2) dev_reg dev_req ctx Hov2)
      as [-> ->].
  - destruct (serve_origin_header (Some o1) dev_reg dev_req ctx Hov) as [-> ->].
    destruct (serve_origin_header (Some o2) dev_reg dev_req ctx Hov2) as [-> ->].
    rewrite !constructor_allowOrigins, Ho.
    match goal with
    | |- context [origin_header ?w _] => set (v := w)
    end.
    set (ca := at_origin_block (constructor (Some o1)) ctx).
    set (cb := at_origin_block (constructor (Some o2)) ctx).
    assert (Hab : request ca = request cb).
    { subst ca cb. by rewrite !at_origin_block_request. }
    split; [|by apply origin_header_completion].
    destruct (settles_origin_header v "access-control-allow-origin" ca cb Hab)
      as [Heq | [Ha Hb]]; [exact Heq|].
    cbn beta in Ha, Hb. rewrite Ha, Hb. subst ca cb.
    by rewrite !at_origin_block_origin.
Qed.

End Plugin.

(** * The properties at concrete inputs *)

(** The examples run on ASCII text, where [JS.ascii_toLowerCase] is what
    [String.prototype.toLowerCase] computes. *)
#[local] Existing Instance JS.ascii_runtime.

(** ** The dev-mode override *)

(** C1, as stated, fails: with no options, a plugin registered while the
    framework is in development mode keeps writing the five lenient headers
    once the flag reads production, where a test made per request would
    write [access-control-allow-origin] only. *)
Lemma override_not_per_request :
  serve None true false (exchange None None)
  <> serve_per_request None false (exchange None None).
Proof.
  intros H.
  apply (f_equal (fun r => header_after r "access-control-allow-credentials")) in H.
  vm_compute in H. discriminate H.
Qed.

(** C2, as stated, fails: with no options, a plugin registered while the
    framework is in production mode serves a request that arrives once the
    flag reads development mode with the policy handler;
    [access-control-allow-credentials] is not written. *)
Lemma override_not_taken_at_request_time :
  header_after (serve None false true (hostExchange EmptyString "example.org"))
    "access-control-allow-credentials"
  <> Some "true".
Proof. vm_compute. discriminate. Qed.

Lemma override_lenient_headers_witness :
  header_after
    (serve (Some (set_ignoreDevMode None demo_options)) true false
       (exchange (Some "https://c.com") None))
    "access-control-allow-headers" = Some "*"
  /\ devModeOverride (constructor (Some demo_options)) (newFramework true)
     = false.
Proof.
  split.
  - apply (override_lenient_headers
             (Some (set_ignoreDevMode None demo_options)) true false
             (exchange (Some "https://c.com") None));
      reflexivity.
  - apply (override_lenient_headers (Some demo_options) true false
             (exchange None None)).
    reflexivity.
Defined.

(** ** allowOrigins with several entries *)


(** C5 fails on the code in its [Host] part.  The host's accessor answers
    the empty string for a request without [Origin]; [??] keeps it, so
    [Host] is never looked at: the request below, whose [Host] is an entry
    of the list, gets [*].  With [Origin] present the matching entry is
    echoed in lower case. *)
Theorem host_fallback_never_taken :
  In "example.org" ["example.org"; "api.example.org"] /\
  header_after
    (serve (Some host_origins) false false (hostExchange EmptyString "example.org"))
    "access-control-allow-origin" = Some "*" /\
  header_after
    (serve (Some host_origins) false false (hostExchange "Example.ORG" "10.0.0.1"))
    "access-control-allow-origin" = Some "example.org".
Proof. split; [simpl; tauto|]. split; reflexivity. Qed.

(** ** Empty lists and empty strings *)

(** C4, as stated, fails: under the production policy an empty
    [allowHeaders] list is not the same as no [allowHeaders]; the header is
    written, with the empty string as its value. *)
Lemma empty_list_is_not_unset :
  header_after
    (serve (Some (set_allowHeaders (Some (JS.Arr [])) production_options))
       false false (exchange None None))
    "access-control-allow-headers" = Some EmptyString
  /\ serve (Some (set_allowHeaders (Some (JS.Arr [])) production_options))
       false false (exchange None None)
     <> serve (Some (set_allowHeaders None production_options))
          false false (exchange None None).
Proof.
  split; [reflexivity|].
  intros H.
  apply (f_equal (fun r => header_after r "access-control-allow-headers")) in H.
  vm_compute in H. discriminate H.
Qed.

Lemma empty_list_policy_witness :
  serve (Some (set_allowMethods (Some (JS.Arr [])) two_origins)) false false
    (exchange (Some "https://b.com") None)
  = (serve (Some (set_allowMethods None two_origins)) false false ;;
     response_set "access-control-allow-methods" EmptyString)
      (exchange (Some "https://b.com") None).
Proof.
  destruct (empty_list_policy two_origins false false
              (exchange (Some "https://b.com") None))
    as (_ & _ & Hmethods & _); [reflexivity|].
  exact Hmethods.
Defined.

(** C6, as stated, fails for one bare string: the empty string is falsy,
    so the header is left out instead of being written with it. *)
Lemma empty_string_not_passed_through :
  header_after
    (serve (Some (set_allowHeaders (Some (JS.Str EmptyString)) production_options))
       false false (exchange None None))
    "access-control-allow-headers"
  <> Some EmptyString.
Proof. vm_compute. discriminate. Qed.

Lemma list_headers_follow_policy_witness :
  header_after
    (serve (Some (set_allowHeaders (Some (JS.Arr ["X-A"; "X-B"])) two_origins))
       false false (exchange (Some "https://a.com") None))
    "access-control-allow-headers" = Some "X-A, X-B".
Proof.
  destruct (list_headers_follow_policy
              (set_allowHeaders (Some (JS.Arr ["X-A"; "X-B"])) two_origins)
              false false (exchange (Some "https://a.com") None)
              (fst (serve (Some (set_allowHeaders (Some (JS.Arr ["X-A"; "X-B"]))
                                   two_origins))
                      false false (exchange (Some "https://a.com") None))))
    as (H & _ & _); [reflexivity | reflexivity |].
  destruct H as (_ & _ & Hlist & _).
  exact (Hlist ["X-A"; "X-B"] eq_refl).
Defined.

(** C10, as stated, fails for the empty string: it is falsy, the
    allowOrigins block is skipped and the header keeps the value [*]. *)
Lemma empty_origin_string_ignored :
  header_after
    (serve (Some (set_allowOrigins (Some (JS.Str EmptyString)) production_options))
       false false (exchange (Some "https://a.com") None))
    "access-control-allow-origin"
  <> Some EmptyString.
Proof. vm_compute. discriminate. Qed.

Lemma bare_origin_string_verbatim_witness :
  header_after
    (serve (Some (set_allowOrigins (Some (JS.Str "https://a.com"))
                    production_options))
       false false (exchange (Some "https://b.com") None))
    "access-control-allow-origin" = Some "https://a.com"
  /\ header_after
    (serve (Some (set_allowOrigins (Some (JS.Str EmptyString))
                    production_options))
       false false (hostExchange "https://b.com" "example.org"))
    "access-control-allow-origin" = Some "*".
Proof.
  split.
  - apply (bare_origin_string_verbatim
             (set_allowOrigins (Some (JS.Str "https://a.com")) production_options)
             "https://a.com" false false (exchange (Some "https://b.com") None));
      (reflexivity || discriminate).
  - apply (bare_origin_string_verbatim
             (set_allowOrigins (Some (JS.Str EmptyString)) production_options)
             EmptyString false false (hostExchange "https://b.com" "example.org"));
      (reflexivity || discriminate).
Defined.

(** ** Credentials *)

Lemma credentials_header_witness :
  header_after (serve (Some two_origins) false false (exchange None None))
    "access-control-allow-credentials" = None
  /\ header_after
    (serve (Some credentials_options) false false
       (hostExchange "https://a.com" "example.org"))
    "access-control-allow-credentials" = Some "true".
Proof.
  split.
  - apply (credentials_header (Some two_origins) false false
             (exchange None None));
      reflexivity.
  - apply (credentials_header (Some credentials_options) false false
             (hostExchange "https://a.com" "example.org"));
      reflexivity.
Defined.

(** ** Absent request headers *)

Lemma evaluation_never_raises_witness :
  snd (serve (Some two_origins) false false
         (hostExchange EmptyString EmptyString)) = inr tt.
Proof.
  apply (evaluation_never_raises (Some two_origins) false false
           (hostExchange EmptyString EmptyString)).
  apply host_accessor_hostRequest.
Defined.

Lemma handler_delegates_witness :
  exists (handler : Middleware) (ctx' : Context),
    server (beforeRegisterControllers (constructor (Some two_origins))
              (newFramework false))
    = [handler] /\
    same_but cors_headers (hostExchange EmptyString EmptyString) ctx' /\
    (forall next,
       handler false next (hostExchange EmptyString EmptyString) = next ctx') /\
    (forall ctx2,
       response ctx2 = response (hostExchange EmptyString EmptyString) ->
       get (request ctx2) "Origin"
       = get (request (hostExchange EmptyString EmptyString)) "Origin" ->
       get (request ctx2) "Host"
       = get (request (hostExchange EmptyString EmptyString)) "Host" ->
       exists ctx2', response ctx2' = response ctx' /\
                     forall next, handler false next ctx2 = next ctx2').
Proof.
  apply (handler_delegates (Some two_origins) false false
           (hostExchange EmptyString EmptyString)).
  apply host_accessor_hostRequest.
Defined.

(** An accessor that answered [undefined] for both headers would make the
    multi-origin branch throw; the frame and idempotence properties cover
    that run of the model as well. *)
Lemma undefined_origin_and_host_raise :
  requestOrigin (request (exchange None None)) = None /\
  serve (Some two_origins) false false (exchange None None)
  = (with_header "access-control-allow-origin" "*" (exchange None None),
     inl JS.TypeError).
Proof. split; reflexivity. Qed.

(** ** Further properties *)

Lemma constructor_lowercases_origins_witness :
  allowOrigins (options (constructor (Some demo_options)))
  = Some (JS.Arr ["https://a.com"; "https://b.com"]).
Proof.
  destruct (constructor_lowercases_origins demo_options
              ["https://a.com"; "https://B.com"] eq_refl)
    as [Hstored _].
  exact Hstored.
Defined.

Lemma unset_origins_allow_any_witness :
  header_after (serve None false false (exchange (Some "https://a.com") None))
    "access-control-allow-origin" = Some "*".
Proof.
  apply (unset_origins_allow_any None false false
           (exchange (Some "https://a.com") None)).
  reflexivity.
Defined.

Lemma wildcard_origins_allow_any_witness :
  header_after
    (serve (Some (set_allowOrigins (Some (JS.Str "any")) production_options))
       false false (exchange (Some "https://a.com") None))
    "access-control-allow-origin" = Some "*".
Proof.
  apply (wildcard_origins_allow_any
           (Some (set_allowOrigins (Some (JS.Str "any")) production_options))
           "any" false false (exchange (Some "https://a.com") None)).
  - reflexivity.
  - right. reflexivity.
Defined.

Lemma single_origin_lowercased_witness :
  header_after
    (serve (Some (set_allowOrigins (Some (JS.Arr ["https://A.com"]))
                    production_options))
       false false (exchange None None))
    "access-control-allow-origin" = Some "https://a.com".
Proof.
  destruct (single_origin_lowercased
              (Some (set_allowOrigins (Some (JS.Arr ["https://A.com"]))
                       production_options))
              "https://A.com" false false (exchange None None)
              eq_refl eq_refl)
    as [_ Hheader].
  exact Hheader.
Defined.

Lemma evaluation_completes_witness :
  snd (serve (Some two_origins) false false (exchange None (Some "example.org")))
  = inr tt
  /\ snd (serve (Some production_options) false false (exchange None None))
     = inr tt.
Proof.
  split.
  - apply (evaluation_completes (Some two_origins) false false
             (exchange None (Some "example.org"))).
    left. discriminate.
  - apply (evaluation_completes (Some production_options) false false
             (exchange None None)).
    right. discriminate.
Defined.

Lemma serve_reads_origin_and_host_witness :
  response (fst (serve (Some two_origins) false false
                   (exchange (Some "https://b.com") None)))
  = response (fst (serve (Some two_origins) false false
                     (postExchange (Some "https://b.com") None))).
Proof.
  apply (serve_reads_origin_and_host (Some two_origins) false false
           (exchange (Some "https://b.com") None)
           (postExchange (Some "https://b.com") None));
    reflexivity.
Defined.

Lemma origin_letter_case_irrelevant_witness :
  response (fst (serve (Some two_origins) false false
                   (exchange (Some "https://B.com") (Some "one.example"))))
  = response (fst (serve (Some two_origins) false false
                     (exchange (Some "HTTPS://b.COM") (Some "two.example")))).
Proof.
  apply (origin_letter_case_irrelevant (Some two_origins) false false
           (exchange (Some "https://B.com") (Some "one.example"))
           (exchange (Some "HTTPS://b.COM") (Some "two.example"))
           "https://B.com" "HTTPS://b.COM");
    reflexivity.
Defined.

Lemma no_policy_writes_origin_only_witness :
  serve None false false (exchange (Some "https://a.com") None)
  = (with_header "access-control-allow-origin" "*"
       (exchange (Some "https://a.com") None), inr tt).
Proof.
  apply (no_policy_writes_origin_only None false false
           (exchange (Some "https://a.com") None));
    reflexivity.
Defined.

Lemma allow_origin_ignores_other_options_witness :
  header_after
    (serve (Some two_origins) false false (exchange (Some "https://b.com") None))
    "access-control-allow-origin"
  = header_after
      (serve (Some (set_allowHeaders (Some (JS.Str "any")) two_origins))
         false false (exchange (Some "https://b.com") None))
      "access-control-allow-origin".
Proof.
  apply (allow_origin_ignores_other_options two_origins
           (set_allowHeaders (Some (JS.Str "any")) two_origins)
           false false (exchange (Some "https://b.com") None));
    reflexivity.
Defined.
